(** * AgenticAnalyst: the generate / execute / recover loop

    A shallow embedding of [backend/app/services/agentic_analyst.py]
    (class [AgenticAnalyst]) and of the properties its design
    document states about it.

    - Python [str] values are sequences of Unicode code points and are
      modelled as [list N].
    - Name spaces (the globals of [exec], the [builtins] module) and
      the heap are stdpp finite maps; names are bound to references,
      so that two name spaces can share one table.
    - Dictionaries whose order shows (the returned dictionaries,
      [df_dict]) are association lists.
    - Exceptions are an explicit outcome; the methods that call the
      language model, the interpreter or pandas run in a state and
      exception monad over a record of those collaborators. *)

From Stdlib Require Import ZArith NArith Lia Bool Ascii String List PrimFloat
  DecimalString.
From stdpp Require Import base option list gmap.

Local Open Scope N_scope.

(** ** Python text primitives *)

Module Py.

Abbreviation text := (list N).

(** A [str] literal of the source (ASCII only). *)
Definition txt (s : string) : text := N_of_ascii <$> list_ascii_of_string s.

Definition nl : N := 10.
Definition backtick : N := 96.
Definition equals_sign : N := 61.
Definition dquote : N := 34.

(** [str.isspace] on one code point: the characters [str.strip()]
    removes when called without argument. *)
Definition isspace (c : N) : bool :=
  ((9 <=? c) && (c <=? 13)) || ((28 <=? c) && (c <=? 32))
  || (c =? 133) || (c =? 160) || (c =? 5760)
  || ((8192 <=? c) && (c <=? 8202))
  || (c =? 8232) || (c =? 8233) || (c =? 8239) || (c =? 8287)
  || (c =? 12288).

Fixpoint lstrip (s : text) : text :=
  match s with
  | [] => []
  | c :: s' => if isspace c then lstrip s' else s
  end.

Fixpoint rstrip (s : text) : text :=
  match s with
  | [] => []
  | c :: s' =>
      match rstrip s' with
      | [] => if isspace c then [] else [c]
      | r => c :: r
      end
  end.

(** [s.strip()] *)
Definition strip (s : text) : text := lstrip (rstrip s).

(** [s.startswith(p)] *)
Fixpoint startswith (p s : text) : bool :=
  match p, s with
  | [], _ => true
  | _ :: _, [] => false
  | a :: p', b :: s' => (a =? b) && startswith p' s'
  end.

(** [s.startswith((p1, ..., pn))] *)
Definition startswith_any (ps : list text) (s : text) : bool :=
  existsb (fun p => startswith p s) ps.

(** [p in s] *)
Fixpoint contains (p s : text) : bool :=
  startswith p s ||
  match s with
  | [] => false
  | _ :: s' => contains p s'
  end.

(** The rest of [s] after the prefix [p], when [s] starts with [p]. *)
Fixpoint after_prefix (p s : text) : option text :=
  match p, s with
  | [], _ => Some s
  | _ :: _, [] => None
  | a :: p', b :: s' => if a =? b then after_prefix p' s' else None
  end.

(** The text before the first occurrence of [p] in [s]. *)
Fixpoint before_first (p s : text) : option text :=
  if startswith p s then Some []
  else match s with
       | [] => None
       | c :: s' => cons c <$> before_first p s'
       end.

(** [s.replace(old, new)] for a non-empty [old]: occurrences are
    found left to right and do not overlap.  [skip] counts the
    characters of a matched occurrence that are still to be dropped. *)
Fixpoint replace_from (old new : text) (skip : nat) (s : text) : text :=
  match s with
  | [] => []
  | c :: s' =>
      match skip with
      | S k => replace_from old new k s'
      | O =>
          if startswith old s
          then new ++ replace_from old new (length old - 1) s'
          else c :: replace_from old new 0 s'
      end
  end.

Definition replace (old new s : text) : text := replace_from old new 0 s.

(** [s.split(sep)] for a one-character separator. *)
Fixpoint split (sep : N) (s : text) : list text :=
  match s with
  | [] => [[]]
  | c :: s' =>
      if c =? sep then [] :: split sep s'
      else match split sep s' with
           | l :: ls => (c :: l) :: ls
           | [] => [[c]]
           end
  end.

(** [sep.join(ls)] *)
Fixpoint join (sep : N) (ls : list text) : text :=
  match ls with
  | [] => []
  | [l] => l
  | l :: ls' => l ++ sep :: join sep ls'
  end.

(** [sep.join(ls)] for a separator text. *)
Fixpoint join_with (sep : text) (ls : list text) : text :=
  match ls with
  | [] => []
  | [l] => l
  | l :: ls' => l ++ sep ++ join_with sep ls'
  end.

End Py.

Import Py.

(** ** Code Sanitizer: [_clean_code] *)

Definition fence : text := [backtick; backtick; backtick].

(** The regular expression [```(?:python|py)?\n(.*?)```] with
    [re.DOTALL], tried at the start of [s].  [fence_body lang r] is
    the rest of the pattern after the opening fence for one
    alternative [lang] of the optional group: the language tag, the
    newline, and the lazy group, which takes the text up to the first
    closing fence.  The alternatives are tried in order; the result
    is the captured group. *)
Definition fence_body (lang r : text) : option text :=
  b ← after_prefix (lang ++ [nl]) r; before_first fence b.

Definition fence_match_at (s : text) : option text :=
  match after_prefix fence s with
  | None => None
  | Some r =>
      match fence_body (txt "python") r with
      | Some g => Some g
      | None =>
          match fence_body (txt "py") r with
          | Some g => Some g
          | None => fence_body [] r
          end
      end
  end.

(** [re.findall(pattern, code, re.DOTALL)[0]], when the list of
    matches is not empty: the leftmost match. *)
Fixpoint first_fence_match (s : text) : option text :=
  match fence_match_at s with
  | Some g => Some g
  | None =>
      match s with
      | [] => None
      | _ :: s' => first_fence_match s'
      end
  end.

(** First step of [_clean_code]: markdown code blocks. *)
Definition remove_fences (code : text) : text :=
  if contains fence code then
    match first_fence_match code with
    | Some m => strip m
    | None =>
        strip (replace fence []
                 (replace (txt "```py") []
                    (replace (txt "```python") [] code)))
    end
  else code.

Definition conversational : list text :=
  [txt "Here"; txt "Let"; txt "Okay"; txt "I "; txt "The "; txt "This ";
   txt "We "; txt "Now "].

Definition code_tokens : list text :=
  [txt "import "; txt "from "; txt "def "; txt "#"; txt "class ";
   txt "if "; txt "for "; txt "while "; txt "try:"; txt "with "].

(** The test of the loop body on one line: not empty once stripped,
    not conversational, and starting with a code token or containing
    an [=]. *)
Definition looks_like_code (line : text) : bool :=
  let stripped := strip line in
  (negb (bool_decide (stripped = [])) &&
   negb (startswith_any conversational stripped)) &&
  (startswith_any code_tokens stripped || contains [equals_sign] stripped).

(** [for i, line in enumerate(lines): ... code_start = i; break],
    with [code_start = 0] before the loop. *)
Fixpoint find_code_start (i : nat) (lines : list text) : nat :=
  match lines with
  | [] => 0%nat
  | line :: rest =>
      if looks_like_code line then i else find_code_start (S i) rest
  end.

(** Second step of [_clean_code]: conversational text before code. *)
Definition drop_preamble (code : text) : text :=
  let lines := split nl code in
  let code_start := find_code_start 0 lines in
  if (0 <? code_start)%nat then join nl (drop code_start lines) else code.

Definition _clean_code (code : text) : text :=
  strip (drop_preamble (remove_fences code)).

(** *** Auxiliary notions for the sanitizer proofs *)

(** Number of backticks at the start of a text. *)
Fixpoint lead (s : text) : nat :=
  match s with
  | [] => 0
  | c :: s' => if backtick =? c then S (lead s') else 0
  end.

Definition any_code (ls : list text) : bool := existsb looks_like_code ls.

(** A text from which [drop_preamble] removes nothing. *)
Definition settled (u : text) : Prop :=
  find_code_start 0 (split nl u) = 0%nat.


(** ** Python values, tables and exceptions *)

(** A cell of a table; [CNaN] is the missing value. *)
Inductive cell : Type :=
  | CNaN
  | CBool (b : bool)
  | CInt (z : Z)
  | CFloat (f : PrimFloat.float)
  | CStr (s : text).

(** A [pandas.DataFrame]: column labels and rows of cells (the row
    index is left out). *)
Record DataFrame : Type := mkDataFrame {
  df_columns : list text;
  df_rows : list (list cell)
}.

#[local] Set Warnings "-register-all".

(** The values the analyst handles.  Dictionaries keep their insertion
    order and have [str] keys. *)
Inductive pyval : Type :=
  | VNone
  | VBool (b : bool)
  | VInt (z : Z)
  | VFloat (f : PrimFloat.float)
  | VStr (s : text)
  | VList (l : list pyval)
  | VDict (d : list (text * pyval))
  | VDataFrame (df : DataFrame)
  | VSeries (index : list text) (values : list cell)
  | VNpInt (z : Z)
  | VNpFloat (f : PrimFloat.float)
  | VNdArray (a : list pyval)
  | VFunction (name : text)
  | VModule (name : text).

(** Objects live in a heap; names are bound to references. *)
Abbreviation loc := N (only parsing).
Abbreviation heap_t := (gmap N pyval) (only parsing).
Abbreviation namespace := (gmap (list N) N) (only parsing).

(** An exception in flight: whether it is an instance of
    [Exception] (what [except Exception] catches), [str(e)], and the
    text [traceback.format_exc()] gives while it is handled. *)
Record exn : Type := mkExn {
  exn_is_Exception : bool;
  exn_str : text;
  exn_tb : text
}.

Inductive outcome (A : Type) : Type :=
  | Return (a : A)
  | Raise (e : exn).
Arguments Return {A} a.
Arguments Raise {A} e.

(** *** Dictionaries with insertion order *)

Fixpoint dict_get {A} (k : text) (d : list (text * A)) : option A :=
  match d with
  | [] => None
  | (k', v) :: d' => if bool_decide (k' = k) then Some v else dict_get k d'
  end.

(** [d[k] = v] *)
Fixpoint dict_set {A} (k : text) (v : A) (d : list (text * A)) :
    list (text * A) :=
  match d with
  | [] => [(k, v)]
  | (k', v') :: d' =>
      if bool_decide (k' = k) then (k, v) :: d' else (k', v') :: dict_set k v d'
  end.

Definition dict_keys {A} (d : list (text * A)) : list text := d.*1.

(** [g.update(d)] on a namespace. *)
Definition namespace_update (g : namespace) (d : list (text * loc)) :
    namespace :=
  foldl (fun g kv => <[kv.1 := kv.2]> g) g d.

(** *** Tables *)

Definition notna (c : cell) : bool :=
  match c with CNaN => false | _ => true end.

(** [len(df)] *)
Definition df_len (df : DataFrame) : nat := length (df_rows df).

(** [df.head(n)] *)
Definition df_head (n : nat) (df : DataFrame) : DataFrame :=
  mkDataFrame (df_columns df) (take n (df_rows df)).

(** [df.empty] *)
Definition df_empty (df : DataFrame) : bool :=
  bool_decide (df_columns df = []) || bool_decide (df_rows df = []).

(** [df.dropna(how='all')]: rows whose cells are all missing go. *)
Definition dropna_rows (df : DataFrame) : DataFrame :=
  mkDataFrame (df_columns df) (List.filter (existsb notna) (df_rows df)).

(** Keep the positions of [xs] whose mask bit is set. *)
Fixpoint select {A} (mask : list bool) (xs : list A) : list A :=
  match mask, xs with
  | b :: mask', x :: xs' => if b then x :: select mask' xs' else select mask' xs'
  | _, _ => []
  end.

(** [df.dropna(axis=1, how='all')]: columns whose cells are all
    missing go. *)
Definition dropna_columns (df : DataFrame) : DataFrame :=
  let mask :=
    imap (fun j _ =>
            existsb (fun r => match r !! j with
                              | Some c => notna c
                              | None => false
                              end) (df_rows df))
         (df_columns df) in
  mkDataFrame (select mask (df_columns df)) (select mask <$> df_rows df).

Definition cell_value (c : cell) : pyval :=
  match c with
  | CNaN => VFloat PrimFloat.nan
  | CBool b => VBool b
  | CInt z => VInt z
  | CFloat f => VFloat f
  | CStr s => VStr s
  end.

(** One record of [df.to_dict(orient='records')]: the row as a
    dictionary keyed by column label. *)
Definition row_record (columns : list text) (row : list cell) : pyval :=
  VDict (foldl (fun d kv => dict_set kv.1 (cell_value kv.2) d) []
               (zip columns row)).

(** [df.to_dict(orient='records')] *)
Definition to_dict_records (df : DataFrame) : pyval :=
  VList (row_record (df_columns df) <$> df_rows df).

(** [series.to_dict()] *)
Definition series_to_dict (index : list text) (values : list cell) : pyval :=
  VDict (foldl (fun d kv => dict_set kv.1 (cell_value kv.2) d) []
               (zip index values)).

(** [array.tolist()]: NumPy scalars become Python scalars, nested
    arrays nested lists. *)
Fixpoint tolist_item (v : pyval) : pyval :=
  match v with
  | VNpInt z => VInt z
  | VNpFloat f => VFloat f
  | VNdArray a => VList (tolist_item <$> a)
  | _ => v
  end.

(** ** Result Normalizer: [_serialize_result] *)

Fixpoint _serialize_result (result : pyval) : pyval :=
  match result with
  | VNone => VNone
  | VDataFrame df =>
      let result := if (100 <? df_len df)%nat then df_head 100 df else df in
      to_dict_records result
  | VSeries index values => series_to_dict index values
  | VNpInt z => VInt z
  | VNpFloat f => VFloat f
  | VNdArray a => VList (tolist_item <$> a)
  | VList l => VList (_serialize_result <$> l)
  | VDict d => VDict ((fun kv => (kv.1, _serialize_result kv.2)) <$> d)
  | _ => result
  end.

(** ** The host runtime *)

(** A [str] literal of the source in which the double quote is
    written [~]. *)
Definition txtq (s : string) : text :=
  (fun c => if c =? 126 then dquote else c) <$> txt s.

(** [str(n)] for a natural number. *)
Definition nat_text (n : nat) : text :=
  txt (DecimalString.NilEmpty.string_of_uint (Nat.to_uint n)).

(** The names of the interpreter's built-in functions. *)
Definition builtin_names : list text :=
  txt <$>
  ["abs"; "aiter"; "all"; "anext"; "any"; "ascii"; "bin"; "bool";
   "breakpoint"; "bytearray"; "bytes"; "callable"; "chr"; "classmethod";
   "compile"; "complex"; "delattr"; "dict"; "dir"; "divmod"; "enumerate";
   "eval"; "exec"; "filter"; "float"; "format"; "frozenset"; "getattr";
   "globals"; "hasattr"; "hash"; "help"; "hex"; "id"; "input"; "int";
   "isinstance"; "issubclass"; "iter"; "len"; "list"; "locals"; "map";
   "max"; "memoryview"; "min"; "next"; "object"; "oct"; "open"; "ord";
   "pow"; "print"; "property"; "range"; "repr"; "reversed"; "round";
   "set"; "setattr"; "slice"; "sorted"; "staticmethod"; "str"; "sum";
   "super"; "tuple"; "type"; "vars"; "zip"; "__import__"]%string.

Definition loc_pandas : loc := 1.
Definition loc_numpy : loc := 2.
Definition loc_json : loc := 3.
Definition loc_builtins : loc := 4.

(** The namespace of the [builtins] module. *)
Definition host_builtins : namespace :=
  list_to_map (imap (fun i x => (x, 16 + N.of_nat i)) builtin_names).

Definition the_builtin (name : string) : loc :=
  default 0 (host_builtins !! txt name).

(** The heap before any table is loaded: the imported modules and the
    built-in functions. *)
Definition host_heap : gmap N pyval :=
  list_to_map
    ([(loc_pandas, VModule (txt "pandas")); (loc_numpy, VModule (txt "numpy"));
      (loc_json, VModule (txt "json")); (loc_builtins, VModule (txt "builtins"))]
     ++ imap (fun i x => (16 + N.of_nat i, VFunction x)) builtin_names).

(** What running a piece of code does: the namespace and the heap
    after it, what it printed, and the exception it ended with. *)
Record exec_effect : Type := mkEffect {
  eff_globals : gmap (list N) N;
  eff_heap : gmap N pyval;
  eff_stdout : text;
  eff_stderr : text;
  eff_raised : option exn
}.

(** The collaborators and the parts of the runtime the analyst calls
    but does not define.  The language-model calls and the interpreter
    take the number of earlier calls of their kind, so that their
    answers may differ from call to call. *)
Record World : Type := mkWorld {
  (** [pd.ExcelFile(path).sheet_names] *)
  ExcelFile : text -> outcome (list text);
  (** [pd.read_excel(xls, sheet_name=...)] *)
  read_excel : text -> text -> outcome DataFrame;
  (** [str.lower] *)
  str_lower : text -> text;
  (** the summary [_analyze_dataframes] builds for one table that is
      not empty: its columns, shape, metric column, numeric columns,
      sample labels and column types, as pandas infers them *)
  summarize_table : DataFrame -> outcome pyval;
  (** [json.dumps(v, indent=2)] *)
  json_dumps : pyval -> outcome text;
  (** [str(v)] *)
  py_str : pyval -> text;
  (** the message of the [AttributeError] for a missing attribute *)
  attribute_error_str : pyval -> text -> text;
  (** the traceback text of an exception raised by the analyst's own
      code, given its message *)
  own_traceback : text -> text;
  (** [groq_client.code_generation(messages, temperature, max_tokens)] *)
  code_generation : nat -> list (text * text) -> PrimFloat.float -> outcome text;
  (** [groq_client.client.chat.completions.create(...)] for the
      explanation, up to [.choices[0].message.content] *)
  chat_completion : nat -> list (text * text) -> outcome text;
  (** the interpreter running [code] with the given globals *)
  python_exec : nat -> text -> gmap (list N) N -> gmap N pyval -> exec_effect
}.

(** *** State and control *)

Record state : Type := mkState {
  heap : gmap N pyval;
  (** requests sent to the Code Generation Client: messages and
      temperature *)
  generation_log : list (list (text * text) * PrimFloat.float);
  (** requests sent to the Explanation Client *)
  explanation_log : list (list (text * text));
  (** executions: the code and the globals handed to [exec] *)
  exec_log : list (text * gmap (list N) N)
}.

Definition M (A : Type) : Type := state -> outcome A * state.

Definition ret {A} (a : A) : M A := fun s => (Return a, s).
Definition raise {A} (e : exn) : M A := fun s => (Raise e, s).
Definition bind {A B} (m : M A) (k : A -> M B) : M B :=
  fun s =>
    match m s with
    | (Return a, s') => k a s'
    | (Raise e, s') => (Raise e, s')
    end.
Definition lift {A} (o : outcome A) : M A := fun s => (o, s).

Declare Scope analyst_scope.
Delimit Scope analyst_scope with analyst.
Notation "x <- m ;; k" := (bind m (fun x => k))
  (at level 100, m at next level, right associativity) : analyst_scope.
Local Open Scope analyst_scope.

(** [try: body except Exception as e: handler(e)] *)
Definition try_except {A} (body : M A) (handler : exn -> M A) : M A :=
  fun s =>
    match body s with
    | (Raise e, s') =>
        if exn_is_Exception e then handler e s' else (Raise e, s')
    | r => r
    end.

(** [raise Exception(msg)] *)
Definition Exception (W : World) (msg : text) : exn :=
  mkExn true msg (own_traceback W msg).

(** A reference not yet used by the heap. *)
Definition fresh_loc (h : gmap N pyval) : loc :=
  N.succ (map_fold (fun l _ m => N.max l m) 0 h).

Definition alloc (v : pyval) : M loc :=
  fun s =>
    let l := fresh_loc (heap s) in
    (Return l,
     mkState (<[l := v]> (heap s)) (generation_log s) (explanation_log s)
             (exec_log s)).

(** [v.get(k, default)] *)
Definition py_get (W : World) (v : pyval) (k : text) (default : pyval) :
    outcome pyval :=
  match v with
  | VDict d =>
      Return (match dict_get k d with Some x => x | None => default end)
  | _ => Raise (mkExn true (attribute_error_str W v (txt "get"))
                      (own_traceback W (attribute_error_str W v (txt "get"))))
  end.

(** A value inside an f-string. *)
Definition format_value (W : World) (v : pyval) : text :=
  match v with
  | VStr s => s
  | _ => py_str W v
  end.

(** ** Execution Sandbox *)

(** [self.safe_globals] as set by [__init__]. *)
Definition safe_globals : namespace :=
  list_to_map
    [(txt "pd", loc_pandas); (txt "np", loc_numpy); (txt "json", loc_json);
     (txt "print", the_builtin "print"); (txt "len", the_builtin "len");
     (txt "sum", the_builtin "sum"); (txt "min", the_builtin "min");
     (txt "max", the_builtin "max"); (txt "round", the_builtin "round");
     (txt "abs", the_builtin "abs"); (txt "float", the_builtin "float");
     (txt "int", the_builtin "int"); (txt "str", the_builtin "str");
     (txt "list", the_builtin "list"); (txt "dict", the_builtin "dict")].

(** [self.max_attempts] as set by [__init__]. *)
Definition max_attempts : nat := 3.

Definition builtins_key : text := txt "__builtins__".

(** [exec(code, globals)] first binds [__builtins__] in [globals] to
    the [builtins] module when the key is missing. *)
Definition with_builtins (g : namespace) : namespace :=
  match g !! builtins_key with
  | Some _ => g
  | None => <[builtins_key := loc_builtins]> g
  end.

(** How the running code resolves a global name: the globals first,
    then the namespace of the module bound to [__builtins__]. *)
Definition resolve (g : namespace) (x : text) : option loc :=
  match g !! x with
  | Some l => Some l
  | None =>
      match g !! builtins_key with
      | Some b => if b =? loc_builtins then host_builtins !! x else None
      | None => None
      end
  end.

(** The globals built by [_execute_code]:
    [self.safe_globals.copy()] updated with [df_dict]. *)
Definition exec_globals_of (df_dict : list (text * loc)) : namespace :=
  namespace_update safe_globals df_dict.

(** [exec(code, exec_globals)] *)
Definition exec (W : World) (code : text) (exec_globals : namespace) :
    M exec_effect :=
  fun s =>
    let g := with_builtins exec_globals in
    let eff := python_exec W (length (exec_log s)) code g (heap s) in
    (Return eff,
     mkState (eff_heap eff) (generation_log s) (explanation_log s)
             (exec_log s ++ [(code, g)])).

(** The message of the exception [_execute_code] raises for a fault
    [e] of the executed code. *)
Definition execution_error_message (e : exn) : text :=
  (txt "Code execution error: " ++ exn_str e)
  ++ [nl; nl] ++ txt "Traceback:" ++ [nl] ++ exn_tb e.

Definition _execute_code (W : World) (code : text)
    (df_dict : list (text * loc)) : M pyval :=
  let exec_globals := exec_globals_of df_dict in
  eff <- exec W code exec_globals ;;
  match eff_raised eff with
  | Some e =>
      if exn_is_Exception e
      then raise (Exception W (execution_error_message e))
      else raise e
  | None =>
      let result :=
        match eff_globals eff !! txt "result" with
        | Some l => _serialize_result (default VNone (eff_heap eff !! l))
        | None => VNone
        end in
      let output := eff_stdout eff in
      let errors := eff_stderr eff in
      ret (VDict [(txt "value", result);
                  (txt "output", VStr output);
                  (txt "errors",
                    if bool_decide (errors = []) then VNone else VStr errors)])
  end.

(** ** Prompt Composer and the two language-model calls *)

(** Literal part 0 of the [error_section] template. *)
Definition error_section_text_0 : text :=
  join nl
    [txtq "";
     txtq "PREVIOUS ATTEMPT FAILED:";
     txtq "Error: "].

(** Literal part 1 of the [error_section] template. *)
Definition error_section_text_1 : text :=
  join nl
    [txtq "";
     txtq "Failed Code:";
     txtq "```python";
     txtq ""].

(** Literal part 2 of the [error_section] template. *)
Definition error_section_text_2 : text :=
  join nl
    [txtq "";
     txtq "```";
     txtq "";
     txtq "Please fix the error and try a different approach. Common issues:";
     txtq "- Wrong column names (check the actual column names below)";
     txtq "- Index out of bounds (check DataFrame shape)";
     txtq "- Type errors (convert data types properly)";
     txtq ""].

(** Literal part 0 of the [prompt] template. *)
Definition prompt_text_0 : text :=
  join nl
    [txtq "";
     txtq "You are an expert Python data analyst. Generate robust Python code to answer this query.";
     txtq "";
     txtq "Query: "].

(** Literal part 1 of the [prompt] template. *)
Definition prompt_text_1 : text :=
  join nl
    [txtq "";
     txtq "";
     txtq "ATTEMPT: "].

(** Literal part 2 of the [prompt] template. *)
Definition prompt_text_2 : text :=
  join nl
    [txtq "/"].

(** Literal part 3 of the [prompt] template. *)
Definition prompt_text_3 : text :=
  join nl
    [txtq "";
     txtq "";
     txtq ""].

(** Literal part 4 of the [prompt] template. *)
Definition prompt_text_4 : text :=
  join nl
    [txtq "";
     txtq "";
     txtq "Available DataFrames with DETAILED STRUCTURE:";
     txtq ""].

(** Literal part 5 of the [prompt] template. *)
Definition prompt_text_5 : text :=
  join nl
    [txtq "";
     txtq "";
     txtq "Financial Context:";
     txtq "Company: "].

(** Literal part 6 of the [prompt] template. *)
Definition prompt_text_6 : text :=
  join nl
    [txtq "";
     txtq "Year: "].

(** Literal part 7 of the [prompt] template. *)
Definition prompt_text_7 : text :=
  join nl
    [txtq "";
     txtq "";
     txtq "CRITICAL INSTRUCTIONS:";
     txtq "1. Use EXACT column names from the structure above";
     txtq "2. Always check if data exists before accessing (use .empty, .shape)";
     txtq "3. Handle missing values with .dropna() or .fillna()";
     txtq "4. Use try-except for risky operations";
     txtq "5. Use print() statements to display formatted output - DO NOT store formatted text in 'result' variable";
     txtq "6. Store only the RAW DATA in 'result' variable (for programmatic access)";
     txtq "7. DataFrames available: "].

(** Literal part 8 of the [prompt] template. *)
Definition prompt_text_8 : text :=
  join nl
    [txtq "";
     txtq "";
     txtq "OUTPUT FORMATTING RULES:";
     txtq "- Use print() to display human-readable formatted output";
     txtq "- Use clear headings and section breaks (e.g., ~=== Profitability Analysis ===~)";
     txtq "- Format percentages with % symbol (e.g., ~Growth: 15.5%~)";
     txtq "- Format currency with appropriate symbols (e.g., ~$1,234.56M~)";
     txtq "- Use tables or structured text for multiple values";
     txtq "- Add context and interpretation to numbers";
     txtq "- NEVER print raw dictionaries like {'key': value} - format them nicely!";
     txtq "- Store raw calculation results in 'result' variable, print formatted version";
     txtq "";
     txtq "EXAMPLE OUTPUT (Good):";
     txtq "```";
     txtq "=== Revenue Growth Analysis ===";
     txtq "Current Year Revenue: $245.12 Billion";
     txtq "Previous Year Revenue: $198.27 Billion";
     txtq "Growth Rate: 23.6%";
     txtq "Status: Strong growth trajectory";
     txtq "```";
     txtq "";
     txtq "EXAMPLE OUTPUT (Bad - DON'T DO THIS):";
     txtq "```";
     txtq "{'revenue_current': 245120000000, 'revenue_previous': 198270000000, 'growth': 0.236}";
     txtq "```";
     txtq "";
     txtq "BEST PRACTICES:";
     txtq "- Use .loc[] for label-based indexing";
     txtq "- Use .iloc[] for position-based indexing";
     txtq "- Check array length before accessing with .values[0]";
     txtq "- Convert to numeric with pd.to_numeric(data, errors='coerce')";
     txtq "- Use .get() method for dict-like operations";
     txtq "";
     txtq "IMPORTANT: DataFrames have LINE ITEMS AS ROWS, NOT COLUMNS!";
     txtq "- First column (index 0) contains row labels like 'Revenue', 'Gross Profit', etc.";
     txtq "- Other columns contain numeric data for different years";
     txtq "- To find data: Search in the FIRST COLUMN, then get values from OTHER COLUMNS";
     txtq "";
     txtq "EXAMPLE (Revenue Growth):";
     txtq "```python";
     txtq "# Find revenue data safely - SEARCH IN ROWS, NOT COLUMNS!";
     txtq "df = income_statement";
     txtq "label_col = df.columns[0]  # First column has labels (e.g., 'Line Item')";
     txtq "";
     txtq "# Search for revenue row by checking values in the first column";
     txtq "revenue_rows = df[df[label_col].astype(str).str.contains('Revenue', case=False, na=False)]";
     txtq "if not revenue_rows.empty:";
     txtq "    # Get numeric values from columns 1 and 2 (current and previous year)";
     txtq "    revenue_current = pd.to_numeric(revenue_rows.iloc[0, 1], errors='coerce')";
     txtq "    revenue_previous = pd.to_numeric(revenue_rows.iloc[0, 2], errors='coerce')";
     txtq "    ";
     txtq "    if pd.notna(revenue_current) and pd.notna(revenue_previous) and revenue_previous != 0:";
     txtq "        result = ((revenue_current - revenue_previous) / revenue_previous) * 100";
     txtq "        print(f~Revenue Growth: {result:.2f}%~)";
     txtq "    else:";
     txtq "        result = None";
     txtq "        print(~Revenue data not found or invalid~)";
     txtq "else:";
     txtq "    result = None";
     txtq "    print(~Revenue row not found in first column~)";
     txtq "```";
     txtq "";
     txtq "CRITICAL: Always use df[df[first_column].str.contains('text')] to search for rows!";
     txtq "DO NOT use df[df['Revenue']] - 'Revenue' is a ROW LABEL, not a column name!";
     txtq "";
     txtq "Generate ONLY executable Python code. No markdown, no explanations, no comments outside code.";
     txtq ""].

(** Literal part 0 of the [explanation] template. *)
Definition explanation_text_0 : text :=
  join nl
    [txtq "";
     txtq "Explain the following analysis in simple terms:";
     txtq "";
     txtq "User Query: "].

(** Literal part 1 of the [explanation] template. *)
Definition explanation_text_1 : text :=
  join nl
    [txtq "";
     txtq "";
     txtq "Code Executed:";
     txtq "```python";
     txtq ""].

(** Literal part 2 of the [explanation] template. *)
Definition explanation_text_2 : text :=
  join nl
    [txtq "";
     txtq "```";
     txtq "";
     txtq "Result:";
     txtq ""].

(** Literal part 3 of the [explanation] template. *)
Definition explanation_text_3 : text :=
  join nl
    [txtq "";
     txtq "";
     txtq "Output:";
     txtq ""].

(** Literal part 4 of the [explanation] template. *)
Definition explanation_text_4 : text :=
  join nl
    [txtq "";
     txtq "";
     txtq "Provide a clear, concise explanation of:";
     txtq "1. What analysis was performed";
     txtq "2. What the results mean";
     txtq "3. Any insights or recommendations";
     txtq "";
     txtq "Keep it under 150 words.";
     txtq ""].

(** The system message of the code-generation request. *)
Definition system_message : text :=
  join nl
    [txtq "You are a Python code generator. You MUST return ONLY valid, executable Python code.";
     txtq "";
     txtq "STRICT RULES:";
     txtq "1. NO explanations, NO markdown, NO comments outside the code";
     txtq "2. Start directly with Python code (no text before)";
     txtq "3. Do not include phrases like ~Here's the code~ or ~Let me explain~";
     txtq "4. Return pure Python code that can be directly executed";
     txtq "5. If you need to explain, use Python comments with # inside the code"].

(** [last_error], the dictionary built by the handler of the retry
    loop and passed on as [error_context]. *)
Record error_context : Type := mkErrorContext {
  ec_error : text;
  ec_traceback : text;
  ec_code : option text
}.

(** [error_context['code']] inside the f-string: the code, or the
    text of [None]. *)
Definition code_text (code : option text) : text :=
  match code with
  | Some c => c
  | None => txt "None"
  end.

(** [error_section] of [_generate_analysis_code]; a dictionary with
    three keys is never false, so [if error_context and attempt > 1]
    tests for [None] and the attempt number. *)
Definition error_section (error_context : option error_context)
    (attempt : nat) : text :=
  match error_context with
  | Some ec =>
      if (1 <? attempt)%nat
      then error_section_text_0 ++ ec_error ec ++
           error_section_text_1 ++ code_text (ec_code ec) ++
           error_section_text_2
      else []
  | None => []
  end.

Definition outcome_bind {A B} (o : outcome A) (k : A -> outcome B) :
    outcome B :=
  match o with
  | Return a => k a
  | Raise e => Raise e
  end.

(** [financial_data.get('metadata', {}).get(field, 'Unknown')] as
    formatted in the prompt. *)
Definition metadata_field (W : World) (financial_data : pyval)
    (field : text) : outcome text :=
  outcome_bind (py_get W financial_data (txt "metadata") (VDict []))
    (fun metadata =>
       outcome_bind (py_get W metadata field (VStr (txt "Unknown")))
         (fun v => Return (format_value W v))).

(** The [prompt] f-string of [_generate_analysis_code]; its
    expressions are evaluated from left to right. *)
Definition analysis_prompt (W : World) (query : text)
    (df_dict : list (text * loc)) (financial_data df_analysis : pyval)
    (error_section : text) (attempt : nat) : outcome text :=
  outcome_bind (json_dumps W df_analysis) (fun summary =>
  outcome_bind (metadata_field W financial_data (txt "company_name"))
    (fun company =>
  outcome_bind (metadata_field W financial_data (txt "fiscal_year"))
    (fun year =>
  Return
    (prompt_text_0 ++ query ++
     prompt_text_1 ++ nat_text attempt ++
     prompt_text_2 ++ nat_text max_attempts ++
     prompt_text_3 ++ error_section ++
     prompt_text_4 ++ summary ++
     prompt_text_5 ++ company ++
     prompt_text_6 ++ year ++
     prompt_text_7 ++
     join_with (txt ", ") (dict_keys df_dict) ++
     prompt_text_8)))).

(** [temperature=0.1 if attempt > 1 else 0.2]; the two literals
    are written as the binary64 values the interpreter reads them
    as. *)
Definition generation_temperature (attempt : nat) : PrimFloat.float :=
  if (1 <? attempt)%nat then 0x1.999999999999ap-4%float
  else 0x1.999999999999ap-3%float.

(** The call of the Code Generation Client, recorded in the log. *)
Definition call_code_generation (W : World) (messages : list (text * text))
    (temperature : PrimFloat.float) : M text :=
  fun s =>
    (code_generation W (length (generation_log s)) messages temperature,
     mkState (heap s) (generation_log s ++ [(messages, temperature)])
             (explanation_log s) (exec_log s)).

(** The call of the Explanation Client, recorded in the log. *)
Definition call_chat_completion (W : World) (messages : list (text * text)) :
    M text :=
  fun s =>
    (chat_completion W (length (explanation_log s)) messages,
     mkState (heap s) (generation_log s)
             (explanation_log s ++ [messages]) (exec_log s)).

Definition _generate_analysis_code (W : World) (query : text)
    (df_dict : list (text * loc)) (financial_data df_analysis : pyval)
    (error_context : option error_context) (attempt : nat) : M text :=
  let error_section := error_section error_context attempt in
  prompt <- lift (analysis_prompt W query df_dict financial_data df_analysis
                                  error_section attempt) ;;
  code <- call_code_generation W
            [(txt "system", system_message); (txt "user", prompt)]
            (generation_temperature attempt) ;;
  let code := strip code in
  let code := _clean_code code in
  ret code.

Definition _generate_explanation (W : World) (query code : text)
    (result : pyval) : M text :=
  value <- lift (py_get W result (txt "value") VNone) ;;
  dumped <- lift (json_dumps W value) ;;
  output <- lift (py_get W result (txt "output") (VStr [])) ;;
  let prompt :=
    explanation_text_0 ++ query ++
    explanation_text_1 ++ code ++
    explanation_text_2 ++ take 500 dumped ++
    explanation_text_3 ++ format_value W output ++
    explanation_text_4 in
  content <- call_chat_completion W
               [(txt "system",
                 txt "You are a financial analyst explaining results.");
                (txt "user", prompt)] ;;
  ret (strip content).

(** ** Table Loader *)

(** [sheet_name.lower().replace(' ', '_').replace('&', 'and')
    .replace('-', '_')] *)
Definition normalize_name (W : World) (sheet_name : text) : text :=
  replace (txt "-") (txt "_")
    (replace (txt "&") (txt "and")
       (replace (txt " ") (txt "_") (str_lower W sheet_name))).

(** The loop of [_load_excel_sheets] over [xls.sheet_names]. *)
Fixpoint load_sheets (W : World) (excel_path : text)
    (sheet_names : list text) (df_dict : list (text * loc)) :
    M (list (text * loc)) :=
  match sheet_names with
  | [] => ret df_dict
  | sheet_name :: rest =>
      let normalized_name := normalize_name W sheet_name in
      df <- lift (read_excel W excel_path sheet_name) ;;
      let df := dropna_columns (dropna_rows df) in
      l <- alloc (VDataFrame df) ;;
      load_sheets W excel_path rest (dict_set normalized_name l df_dict)
  end.

Definition _load_excel_sheets (W : World) (excel_path : text) :
    M (list (text * loc)) :=
  sheet_names <- lift (ExcelFile W excel_path) ;;
  load_sheets W excel_path sheet_names [].

(** ** Table Introspector *)

(** The loop of [_analyze_dataframes] over [df_dict.items()]: an
    empty table is skipped, any other table gets an entry in
    [analysis]. *)
Fixpoint analyze_items (W : World) (items : list (text * pyval))
    (analysis : list (text * pyval)) : outcome pyval :=
  match items with
  | [] => Return (VDict analysis)
  | (name, VDataFrame df) :: rest =>
      if df_empty df then analyze_items W rest analysis
      else
        outcome_bind (summarize_table W df)
          (fun summary => analyze_items W rest (dict_set name summary analysis))
  | (name, v) :: rest =>
      Raise (mkExn true (attribute_error_str W v (txt "empty"))
                   (own_traceback W (attribute_error_str W v (txt "empty"))))
  end.

(** [_analyze_dataframes]: the tables are the objects the names of
    [df_dict] refer to. *)
Definition _analyze_dataframes (W : World) (df_dict : list (text * loc)) :
    M pyval :=
  fun s =>
    (analyze_items W
       ((fun kv => (kv.1, default VNone (heap s !! kv.2))) <$> df_dict) [],
     s).

(** ** Retry Controller: [analyze] *)

(** The dictionary returned on success. *)
Definition success_result (user_query code : text) (result : pyval)
    (explanation : text) (attempt : nat) : pyval :=
  VDict [(txt "success", VBool true);
         (txt "query", VStr user_query);
         (txt "code", VStr code);
         (txt "result", result);
         (txt "explanation", VStr explanation);
         (txt "attempts", VInt (Z.of_nat (attempt + 1)))].

(** The dictionary returned by the outer handler. *)
Definition failure_result (user_query : text) (e : exn) : pyval :=
  VDict [(txt "success", VBool false);
         (txt "query", VStr user_query);
         (txt "error", VStr (exn_str e));
         (txt "explanation",
          VStr (txt "Error occurred during analysis after " ++
                nat_text max_attempts ++ txt " attempts: " ++ exn_str e));
         (txt "attempts", VInt (Z.of_nat max_attempts))].

(** How one pass through the loop body ends when it does not raise:
    with the value [analyze] returns, or with [continue] and the
    locals [last_error] and [code] as they then are. *)
Inductive pass : Type :=
  | Finished (r : pyval)
  | Continue (last_error : error_context) (code : option text).

(** The [except Exception as exec_error] clause of the loop body;
    [code] is the local of that name, unbound ([None]) or bound. *)
Definition attempt_handler (attempt : nat) (code : option text)
    (exec_error : exn) : M pass :=
  let last_error :=
    mkErrorContext (exn_str exec_error) (exn_tb exec_error) code in
  if (attempt =? max_attempts - 1)%nat then raise exec_error
  else ret (Continue last_error code).

(** The body of [for attempt in range(self.max_attempts)].  The
    assignment to [code] takes effect as soon as generation returns,
    so the handler sees the new code after an execution or an
    explanation fault and the old one after a generation fault. *)
Definition run_attempt (W : World) (user_query : text)
    (df_dict : list (text * loc)) (financial_data df_analysis : pyval)
    (attempt : nat) (last_error : option error_context)
    (code : option text) : M pass :=
  fun s =>
    match _generate_analysis_code W user_query df_dict financial_data
            df_analysis
            (if (0 <? attempt)%nat then last_error else None)
            (attempt + 1) s with
    | (Raise e, s1) => try_except (raise e) (attempt_handler attempt code) s1
    | (Return code', s1) =>
        try_except
          (result <- _execute_code W code' df_dict ;;
           explanation <- _generate_explanation W user_query code' result ;;
           ret (Finished (success_result user_query code' result
                                         explanation attempt)))
          (attempt_handler attempt (Some code')) s1
    end.

(** The [for] loop over the remaining attempt numbers. *)
Fixpoint retry_loop (W : World) (user_query : text)
    (df_dict : list (text * loc)) (financial_data df_analysis : pyval)
    (attempts : list nat) (last_error : option error_context)
    (code : option text) : M pyval :=
  match attempts with
  | [] => ret VNone
  | attempt :: rest =>
      p <- run_attempt W user_query df_dict financial_data df_analysis
             attempt last_error code ;;
      match p with
      | Finished r => ret r
      | Continue last_error code =>
          retry_loop W user_query df_dict financial_data df_analysis rest
                     (Some last_error) code
      end
  end.

Definition analyze (W : World) (user_query excel_path : text)
    (financial_data : pyval) : M pyval :=
  try_except
    (df_dict <- _load_excel_sheets W excel_path ;;
     df_analysis <- _analyze_dataframes W df_dict ;;
     retry_loop W user_query df_dict financial_data df_analysis
                (seq 0 max_attempts) None None)
    (fun e => ret (failure_result user_query e)).

(** ** Auxiliary notions for the statements *)

(** The rows of a normalized value that is a list. *)
Definition transport_rows (v : pyval) : list pyval :=
  match v with
  | VList l => l
  | _ => []
  end.

(** The value of a field of a returned dictionary. *)
Definition field (k : string) (r : pyval) : option pyval :=
  match r with
  | VDict d => dict_get (txt k) d
  | _ => None
  end.






(** The user prompt of a logged generation request. *)
Definition user_prompt (request : list (text * text) * PrimFloat.float) :
    text :=
  default [] (dict_get (txt "user") request.1).

(** ** Concrete scenarios *)

(** A table of two columns and [n] rows. *)
Definition sample_table (n : nat) : DataFrame :=
  mkDataFrame [txt "Line Item"; txt "2024"]
    ((fun i => [CStr (txt "Revenue"); CInt (Z.of_nat i)]) <$> seq 0 n).

(** A table whose cells are all empty. *)
Definition blank_table : DataFrame :=
  mkDataFrame [txt "Line Item"; txt "2024"] [[CNaN; CNaN]; [CNaN; CNaN]].

Definition ascii_lower (s : text) : text :=
  (fun c => if (65 <=? c) && (c <=? 90) then c + 32 else c) <$> s.

Definition drop_rows_code : text :=
  txt "income_statement.drop(income_statement.index, inplace=True)".
Definition count_rows_code : text := txt "result = len(income_statement)".
Definition divide_code : text := txt "result = 1 / 0".
Definition constant_code : text := txt "result = 25".
Definition rebind_code : text := txt "income_statement = None; len = None".

Definition zero_division : exn :=
  mkExn true (txt "division by zero")
        (txt "ZeroDivisionError: division by zero").

Definition effect_of (g : gmap (list N) N) (h : gmap N pyval)
    (raised : option exn) : exec_effect :=
  mkEffect g h [] [] raised.

(** An interpreter for the five statements above; any other code is
    a syntax error. *)
Definition toy_python (n : nat) (code : text) (g : gmap (list N) N)
    (h : gmap N pyval) : exec_effect :=
  if bool_decide (code = constant_code) then
    let l := fresh_loc h in
    effect_of (<[txt "result" := l]> g) (<[l := VInt 25]> h) None
  else if bool_decide (code = divide_code) then
    effect_of g h (Some zero_division)
  else if bool_decide (code = drop_rows_code) then
    match g !! txt "income_statement" with
    | Some t =>
        match h !! t with
        | Some (VDataFrame df) =>
            effect_of g (<[t := VDataFrame (mkDataFrame (df_columns df) [])]> h)
                      None
        | _ => effect_of g h None
        end
    | None =>
        effect_of g h
          (Some (mkExn true (txt "name 'income_statement' is not defined")
                   (txt "NameError: name 'income_statement' is not defined")))
    end
  else if bool_decide (code = count_rows_code) then
    match g !! txt "income_statement" with
    | Some t =>
        let l := fresh_loc h in
        let n :=
          match h !! t with
          | Some (VDataFrame df) => Z.of_nat (df_len df)
          | _ => 0%Z
          end in
        effect_of (<[txt "result" := l]> g) (<[l := VInt n]> h) None
    | None =>
        effect_of g h
          (Some (mkExn true (txt "name 'income_statement' is not defined")
                   (txt "NameError: name 'income_statement' is not defined")))
    end
  else if bool_decide (code = rebind_code) then
    let l := fresh_loc h in
    effect_of (<[txt "len" := l]> (<[txt "income_statement" := l]> g))
              (<[l := VNone]> h) None
  else
    effect_of g h
      (Some (mkExn true (txt "invalid syntax") (txt "SyntaxError: invalid syntax"))).

(** A world with one workbook; the answers of the two language-model
    services, the sheets of the workbook and its tables vary. *)
Definition scenario (sheets : outcome (list text)) (table : DataFrame)
    (generated : nat -> outcome text) (explained : nat -> outcome text) :
    World :=
  mkWorld
    (fun _ => sheets)
    (fun _ _ => Return table)
    ascii_lower
    (fun df =>
       Return (VDict [(txt "columns", VList (VStr <$> df_columns df));
                      (txt "shape",
                       VList [VInt (Z.of_nat (df_len df));
                              VInt (Z.of_nat (length (df_columns df)))])]))
    (fun _ => Return (txt "{}"))
    (fun _ => txt "Unknown")
    (fun _ attr => txt "object has no attribute " ++ attr)
    (fun msg => txt "Traceback (most recent call last): " ++ msg)
    (fun n _ _ => generated n)
    (fun n _ => explained n)
    toy_python.

Definition fault (msg : string) : exn :=
  mkExn true (txt msg) (txt "Traceback (most recent call last): " ++ txt msg).

Definition one_sheet : outcome (list text) := Return [txt "Income Statement"].

Definition initial_state : state := mkState host_heap [] [] [].

Definition no_context : pyval := VDict [].


(** The only sheet has no cell with a value. *)
Definition world_blank : World :=
  scenario one_sheet blank_table
    (fun _ => Return constant_code)
    (fun _ => Return (txt "The total is 25.")).

(** Everything works at the first attempt. *)
Definition world_first_try : World :=
  scenario one_sheet (sample_table 2)
    (fun _ => Return constant_code)
    (fun _ => Return (txt "The total is 25.")).

(** Generation and execution work, the explanation service is down. *)
Definition world_no_explanation : World :=
  scenario one_sheet (sample_table 2)
    (fun _ => Return constant_code)
    (fun _ => Raise (fault "explanation service unavailable")).

(** Every generated code divides by zero. *)
Definition world_always_faulting : World :=
  scenario one_sheet (sample_table 2)
    (fun _ => Return divide_code)
    (fun _ => Return (txt "unused")).


(** The first code divides by zero, the second generation request is
    refused, the third returns working code. *)
Definition world_stale_code : World :=
  scenario one_sheet (sample_table 2)
    (fun n => match n with
              | O => Return divide_code
              | S O => Raise (fault "rate limit exceeded")
              | _ => Return constant_code
              end)
    (fun _ => Return (txt "The total is 25.")).

(** ** Auxiliary notions for the retry loop *)

(** What the loop body does with an exception [e] of the pass. *)
Definition handle (attempt : nat) (code : option text) (e : exn) :
    M pass :=
  fun s =>
    if exn_is_Exception e then attempt_handler attempt code e s
    else (Raise e, s).

(** The pass [attempt], started in state [s] with the locals
    [last_error] and [code], faults in generation or in execution:
    [e] is the exception its handler receives, [code'] the local
    [code] at that point and [s'] the state. *)
Definition attempt_faults (W : World) (q : text) (d : list (text * loc))
    (fd da : pyval) (attempt : nat) (last_error : option error_context)
    (code : option text) (s : state) (e : exn) (code' : option text)
    (s' : state) : Prop :=
  exn_is_Exception e = true /\
  ((_generate_analysis_code W q d fd da
      (if (0 <? attempt)%nat then last_error else None) (attempt + 1) s
    = (Raise e, s') /\ code' = code) \/
   (exists c s1,
      _generate_analysis_code W q d fd da
        (if (0 <? attempt)%nat then last_error else None) (attempt + 1) s
      = (Return c, s1) /\
      _execute_code W c d s1 = (Raise e, s') /\ code' = Some c)).

(** [last_error] as the handler builds it. *)
Definition last_error_of (e : exn) (code : option text) : error_context :=
  mkErrorContext (exn_str e) (exn_tb e) code.

(** The workbook has no sheet called Income Statement: the first
    code, which counts the rows of that table, faults; the second
    code works. *)
Definition world_missing_table : World :=
  scenario (Return [txt "Balance Sheet"]) (sample_table 2)
    (fun n => match n with
              | O => Return count_rows_code
              | _ => Return constant_code
              end)
    (fun _ => Return (txt "The total is 25.")).

(** The generated code never binds [result]. *)
Definition world_no_result : World :=
  scenario one_sheet (sample_table 2)
    (fun _ => Return drop_rows_code)
    (fun _ => Return (txt "The rows were dropped.")).

(** The value a computation returned ([x] when it raised). *)
Definition returned {A} (x : A) (r : outcome A * state) : A :=
  match r.1 with
  | Return a => a
  | Raise _ => x
  end.

(** ** Further definitions: value shapes, the loader's invariant, the routes *)


(** ** Further notions: transport values *)

(** A value that [json.dumps] can write: a scalar, or a list or a
    dictionary of such values. *)
Fixpoint json_like (v : pyval) : bool :=
  match v with
  | VNone | VBool _ | VInt _ | VFloat _ | VStr _ => true
  | VList l => forallb json_like l
  | VDict d => forallb (fun kv => json_like kv.2) d
  | _ => false
  end.




(** ** Further notions: tables as the loader leaves them *)



(** [df.dropna(how='all').dropna(axis=1, how='all')], the cleaning
    step of [_load_excel_sheets]. *)
Definition clean_table (df : DataFrame) : DataFrame :=
  dropna_columns (dropna_rows df).

(** The last sheet of [names] whose normalized name is [k]. *)
Definition last_sheet_named (W : World) (k : text) (names : list text) :
    option text :=
  last (List.filter (fun n => bool_decide (normalize_name W n = k)) names).

(** What holds of [df_dict] and the heap once the sheets [done] of the
    workbook [p] are loaded: the names are the normalized sheet names,
    each once, and each refers to the cleaned table of the last sheet
    of that name. *)
Definition loaded (W : World) (p : text) (done : list text)
    (d : list (text * loc)) (s : state) : Prop :=
  NoDup (dict_keys d) /\
  (forall k, k ∈ dict_keys d <-> k ∈ normalize_name W <$> done) /\
  forall k l, dict_get k d = Some l ->
    exists sheet df,
      last_sheet_named W k done = Some sheet /\
      read_excel W p sheet = Return df /\
      heap s !! l = Some (VDataFrame (clean_table df)).

(** ** Further notions: the calls made between two states *)

(** From [s] to [s'] the three logs only grew, by at most [n]
    generation requests, by no more executions than generation
    requests and by no more explanation requests than executions. *)
Definition calls_between (s s' : state) (n : nat) : Prop :=
  let g := (length (generation_log s') - length (generation_log s))%nat in
  let x := (length (exec_log s') - length (exec_log s))%nat in
  let a :=
    (length (explanation_log s') - length (explanation_log s))%nat in
  (length (generation_log s) <= length (generation_log s') /\
   length (exec_log s) <= length (exec_log s') /\
   length (explanation_log s) <= length (explanation_log s') /\
   a <= x /\ x <= g /\ g <= n)%nat.


(** The prompt of [_generate_analysis_code] can be composed: the
    summary and the two metadata fields can be written. *)
Definition prompt_composes (W : World) (q : text) (d : list (text * loc))
    (fd da : pyval) : Prop :=
  exists section attempt prompt,
    analysis_prompt W q d fd da section attempt = Return prompt.


(** ** Callers: the endpoints of [routes/chatbot.py] *)

(** The [try] block of [execute_custom_code], entered once the user
    and the report are found: the tables are loaded, the code of the
    caller is run once by the sandbox, and any [Exception] becomes a
    dictionary. *)
Definition execute_custom_code (W : World) (code excel_path : text) :
    M pyval :=
  try_except
    (df_dict <- _load_excel_sheets W excel_path ;;
     result <- _execute_code W code df_dict ;;
     ret (VDict [(txt "success", VBool true); (txt "result", result)]))
    (fun e =>
       ret (VDict [(txt "success", VBool false);
                   (txt "error", VStr (exn_str e))])).

Module Schema.

(** The response model [AgenticResponse]. *)
Record AgenticResponse : Type := mkAgenticResponse {
  success : bool;
  query : text;
  code : option text;
  result : option pyval;
  explanation : text;
  error : option text;
  attempts : option Z
}.

End Schema.

(** A required field of type [bool] or [str]. *)
Definition required_bool (k : string) (kw : list (text * pyval)) :
    option bool :=
  match dict_get (txt k) kw with
  | Some (VBool b) => Some b
  | _ => None
  end.

Definition required_str (k : string) (kw : list (text * pyval)) :
    option text :=
  match dict_get (txt k) kw with
  | Some (VStr s) => Some s
  | _ => None
  end.

(** An [Optional] field with default [None]: the key may be missing
    or hold [None]. *)
Definition optional_str (k : string) (kw : list (text * pyval)) :
    option (option text) :=
  match dict_get (txt k) kw with
  | None | Some VNone => Some None
  | Some (VStr s) => Some (Some s)
  | Some _ => None
  end.

Definition optional_int (k : string) (kw : list (text * pyval)) :
    option (option Z) :=
  match dict_get (txt k) kw with
  | None | Some VNone => Some None
  | Some (VInt z) => Some (Some z)
  | Some _ => None
  end.

Definition optional_any (k : string) (kw : list (text * pyval)) :
    option pyval :=
  match dict_get (txt k) kw with
  | None | Some VNone => None
  | Some v => Some v
  end.

(** [AgenticResponse( **result )]: the response when every field
    present has a value of its declared type, [None] when validation
    fails.  Only values of the declared types are accepted here; the
    validation of the library also converts some values of other
    types, so a dictionary accepted here is accepted there. *)
Definition AgenticResponse (kwargs : pyval) : option Schema.AgenticResponse :=
  match kwargs with
  | VDict kw =>
      success ← required_bool "success" kw;
      query ← required_str "query" kw;
      code ← optional_str "code" kw;
      explanation ← required_str "explanation" kw;
      error ← optional_str "error" kw;
      attempts ← optional_int "attempts" kw;
      Some (Schema.mkAgenticResponse success query code
              (optional_any "result" kw) explanation error attempts)
  | _ => None
  end.

(** What an endpoint answers. *)
Inductive answer : Type :=
  | Responded (response : Schema.AgenticResponse)
  | HTTPException (status_code : nat) (detail : text).

(** The [try] block of the endpoint [agentic_analysis], entered once
    the user, the report and its data are found; [validation_error]
    is the exception the response model raises for a dictionary it
    rejects. *)
Definition agentic_analysis (W : World) (validation_error : pyval -> exn)
    (query excel_path : text) (financial_data : pyval) : M answer :=
  try_except
    (result <- analyze W query excel_path financial_data ;;
     match AgenticResponse result with
     | Some response => ret (Responded response)
     | None => raise (validation_error result)
     end)
    (fun e =>
       ret (HTTPException 500 (txt "Analysis error: " ++ exn_str e))).

(** ** Further scenarios *)

(** Two sheets with the same normalized name and different tables. *)
Definition world_two_sheets : World :=
  mkWorld
    (fun _ => Return [txt "Profit Loss"; txt "Profit-Loss"])
    (fun _ sheet =>
       Return (if bool_decide (sheet = txt "Profit Loss")
               then sample_table 2 else sample_table 3))
    ascii_lower
    (fun df => Return (VDict []))
    (fun _ => Return (txt "{}"))
    (fun _ => txt "Unknown")
    (fun _ attr => txt "object has no attribute " ++ attr)
    (fun msg => txt "Traceback (most recent call last): " ++ msg)
    (fun _ _ _ => Return constant_code)
    (fun _ _ => Return (txt "The total is 25."))
    toy_python.

(** An exception that is no [Exception], as [exit()] raises. *)
Definition system_exit : exn := mkExn false [] (txt "SystemExit").

(** Whatever the code, running it ends the interpreter. *)
Definition world_exit : World :=
  mkWorld
    (fun _ => one_sheet)
    (fun _ _ => Return (sample_table 2))
    ascii_lower
    (fun df => Return (VDict []))
    (fun _ => Return (txt "{}"))
    (fun _ => txt "Unknown")
    (fun _ attr => txt "object has no attribute " ++ attr)
    (fun msg => txt "Traceback (most recent call last): " ++ msg)
    (fun _ _ _ => Return (txt "exit()"))
    (fun _ _ => Return (txt "unused"))
    (fun _ _ g h => effect_of g h (Some system_exit)).

(** *** Examples *)

Example clean_fenced :
  _clean_code (txt "Here:" ++ [nl] ++ txt "```python" ++ [nl] ++
               txt "x = 1" ++ [nl] ++ txt "```" ++ [nl] ++ txt "bye")
  = txt "x = 1".
Proof. vm_compute. reflexivity. Qed.

Example clean_preamble :
  _clean_code (txt "Here is the code" ++ [nl] ++ [nl] ++
               txt "  import pandas" ++ [nl] ++ txt "result = 1  ")
  = txt "import pandas" ++ [nl] ++ txt "result = 1".
Proof. vm_compute. reflexivity. Qed.

Example clean_plain_text :
  _clean_code (txt "  no code here  ") = txt "no code here".
Proof. vm_compute. reflexivity. Qed.

Example clean_unclosed_fence :
  _clean_code (txt "```python x = 1") = txt "x = 1".
Proof. vm_compute. reflexivity. Qed.

(** ** Lemmas on the text primitives *)

Section TextLemmas.

Implicit Types (s p : text) (c : N).

Lemma startswith_app p s : startswith p (p ++ s) = true.
Proof.
  induction p as [|a p IH]; simpl; [done|].
  by rewrite N.eqb_refl.
Qed.

Lemma startswith_inv p s :
  startswith p s = true -> exists r, s = p ++ r.
Proof.
  revert s; induction p as [|a p IH]; intros s H; simpl in *.
  - by exists s.
  - destruct s as [|b s]; [done|].
    apply andb_true_iff in H as [Hab H].
    apply N.eqb_eq in Hab as ->.
    destruct (IH _ H) as [r ->]. by exists r.
Qed.

Lemma contains_startswith p s :
  startswith p s = true -> contains p s = true.
Proof. intros H. destruct s; simpl; by rewrite H. Qed.

Lemma contains_iff p s :
  contains p s = true <-> exists a b, s = a ++ p ++ b.
Proof.
  split.
  - induction s as [|c s IH]; simpl; intros H.
    + rewrite orb_false_r in H.
      apply startswith_inv in H as [r Hr]. by exists [], r.
    + apply orb_true_iff in H as [H|H].
      * apply startswith_inv in H as [r Hr]. by exists [], r.
      * destruct (IH H) as (a & b & ->). by exists (c :: a), b.
  - intros (a & b & ->).
    induction a as [|c a IH]; simpl.
    + apply contains_startswith, startswith_app.
    + by rewrite IH, orb_true_r.
Qed.

Lemma contains_infix p a s b :
  contains p s = true -> contains p (a ++ s ++ b) = true.
Proof.
  rewrite !contains_iff. intros (x & y & ->).
  exists (a ++ x), (y ++ b). by rewrite <- !app_assoc.
Qed.

Lemma lstrip_suffix s : exists a, s = a ++ lstrip s.
Proof.
  induction s as [|c s [a IH]]; simpl; [by exists []|].
  destruct (isspace c); [|by exists []].
  exists (c :: a). simpl. by f_equal.
Qed.

Lemma rstrip_prefix s : exists b, s = rstrip s ++ b.
Proof.
  induction s as [|c s [b IH]]; simpl; [by exists []|].
  destruct (rstrip s) as [|d r] eqn:E.
  - destruct (isspace c).
    + by exists (c :: s).
    + exists b. simpl in *. by f_equal.
  - exists b. simpl in *. by f_equal.
Qed.

Lemma strip_infix s : exists a b, s = a ++ strip s ++ b.
Proof.
  unfold strip.
  destruct (rstrip_prefix s) as [b Hb].
  destruct (lstrip_suffix (rstrip s)) as [a Ha].
  exists a, b. rewrite app_assoc, <- Ha. exact Hb.
Qed.

Lemma contains_strip p s :
  contains p s = false -> contains p (strip s) = false.
Proof.
  intros H. destruct (contains p (strip s)) eqn:E; [|done].
  destruct (strip_infix s) as (a & b & Hs).
  apply (contains_infix _ a _ b) in E. rewrite <- Hs in E. congruence.
Qed.

Lemma lstrip_idem s : lstrip (lstrip s) = lstrip s.
Proof.
  induction s as [|c s IH]; simpl; [done|].
  destruct (isspace c) eqn:E; [done|]. simpl. by rewrite E.
Qed.

Lemma rstrip_idem s : rstrip (rstrip s) = rstrip s.
Proof.
  induction s as [|c s IH]; simpl; [done|].
  destruct (rstrip s) as [|d r] eqn:E.
  - destruct (isspace c) eqn:Ec; simpl; [done|]. by rewrite Ec.
  - simpl in *. by rewrite IH.
Qed.

Lemma rstrip_lstrip s : rstrip (lstrip s) = lstrip (rstrip s).
Proof.
  induction s as [|c s IH]; simpl; [done|].
  destruct (isspace c) eqn:Ec.
  - rewrite IH. destruct (rstrip s) as [|d r]; simpl; [done|].
    by rewrite Ec.
  - simpl. destruct (rstrip s) as [|d r]; simpl; by rewrite Ec.
Qed.

Lemma strip_idem s : strip (strip s) = strip s.
Proof.
  unfold strip.
  by rewrite (rstrip_lstrip (rstrip s)), rstrip_idem, lstrip_idem.
Qed.

Lemma strip_cons_space c s : isspace c = true -> strip (c :: s) = strip s.
Proof.
  intros Hc. unfold strip. simpl.
  destruct (rstrip s) as [|d r]; simpl; by rewrite Hc.
Qed.

Lemma strip_rstrip_eq s s' : rstrip s = rstrip s' -> strip s = strip s'.
Proof. unfold strip. by intros ->. Qed.

Lemma rstrip_cons_eq c s s' :
  rstrip s = rstrip s' -> rstrip (c :: s) = rstrip (c :: s').
Proof. simpl. by intros ->. Qed.

Lemma split_not_nil sep s : split sep s <> [].
Proof.
  destruct s as [|c s]; simpl; [done|].
  destruct (c =? sep); [done|]. by destruct (split sep s).
Qed.

Lemma split_cons sep c s :
  split sep (c :: s) =
  if c =? sep then [] :: split sep s
  else (c :: hd [] (split sep s)) :: tl (split sep s).
Proof.
  simpl. destruct (c =? sep); [done|].
  pose proof (split_not_nil sep s). by destruct (split sep s).
Qed.

Lemma split_no_sep sep s : Forall (fun l => sep ∉ l) (split sep s).
Proof.
  induction s as [|c s IH].
  - repeat constructor. apply not_elem_of_nil.
  - rewrite split_cons. destruct (c =? sep) eqn:E.
    + constructor; [apply not_elem_of_nil | done].
    + pose proof (split_not_nil sep s).
      destruct (split sep s) as [|l ls]; [done|]. simpl.
      inversion IH; subst. constructor; [|done].
      apply not_elem_of_cons. split; [|done].
      intros ->. by rewrite N.eqb_refl in E.
Qed.

Lemma split_line_app sep l s :
  sep ∉ l -> split sep (l ++ sep :: s) = l :: split sep s.
Proof.
  induction l as [|c l IH]; intros Hl.
  - simpl. by rewrite N.eqb_refl.
  - apply not_elem_of_cons in Hl as [Hc Hl].
    rewrite <- app_comm_cons, split_cons, (IH Hl). simpl.
    destruct (c =? sep) eqn:E; [|done].
    apply N.eqb_eq in E. congruence.
Qed.

Lemma split_line sep l : sep ∉ l -> split sep l = [l].
Proof.
  induction l as [|c l IH]; intros Hl; [done|].
  apply not_elem_of_cons in Hl as [Hc Hl].
  rewrite split_cons, (IH Hl). simpl.
  destruct (c =? sep) eqn:E; [|done].
  apply N.eqb_eq in E. congruence.
Qed.

Lemma split_join sep ls :
  ls <> [] -> Forall (fun l => sep ∉ l) ls -> split sep (join sep ls) = ls.
Proof.
  induction ls as [|l ls IH]; [done|]. intros _ H.
  inversion H as [|? ? Hl Hls]; subst.
  destruct ls as [|l' ls].
  - simpl. by apply split_line.
  - change (join sep (l :: l' :: ls)) with (l ++ sep :: join sep (l' :: ls)).
    rewrite split_line_app by done. f_equal. by apply IH.
Qed.

Lemma join_split sep s : join sep (split sep s) = s.
Proof.
  induction s as [|c s IH]; [done|].
  rewrite split_cons. pose proof (split_not_nil sep s) as Hne.
  destruct (c =? sep) eqn:E.
  - apply N.eqb_eq in E as ->.
    destruct (split sep s) as [|l ls] eqn:Es; [done|].
    change (join sep ([] :: l :: ls)) with (sep :: join sep (l :: ls)).
    by rewrite IH.
  - destruct (split sep s) as [|l ls] eqn:Es; [done|]. simpl hd; simpl tl.
    destruct ls as [|l' ls]; simpl in *; by rewrite <- IH.
Qed.

Lemma join_app sep ls1 ls2 :
  ls1 <> [] -> ls2 <> [] ->
  join sep (ls1 ++ ls2) = join sep ls1 ++ sep :: join sep ls2.
Proof.
  induction ls1 as [|l ls1 IH]; [done|]. intros _ H2.
  destruct ls1 as [|l' ls1].
  - destruct ls2; [done|]. reflexivity.
  - change (join sep ((l :: l' :: ls1) ++ ls2))
      with (l ++ sep :: join sep ((l' :: ls1) ++ ls2)).
    rewrite IH by done.
    change (join sep (l :: l' :: ls1)) with (l ++ sep :: join sep (l' :: ls1)).
    by rewrite <- app_assoc.
Qed.

End TextLemmas.

(** ** Lemmas on the sanitizer *)

Section SanitizerLemmas.

Implicit Types (s p : text) (c : N).

Lemma startswith_trans p a s :
  startswith p a = true -> startswith a s = true -> startswith p s = true.
Proof.
  intros Hp Ha.
  apply startswith_inv in Hp as [r ->].
  apply startswith_inv in Ha as [r' ->].
  rewrite <- app_assoc. apply startswith_app.
Qed.

Lemma before_first_prefix p s m :
  before_first p s = Some m -> startswith m s = true.
Proof.
  revert m; induction s as [|c s IH]; intros m; simpl.
  - destruct (startswith p []); [|done]. by intros [= <-].
  - destruct (startswith p (c :: s)); [by intros [= <-]|].
    destruct (before_first p s) as [m'|]; [|done].
    intros [= <-]. simpl. by rewrite N.eqb_refl, (IH m').
Qed.

Lemma before_first_clean p s m :
  p <> [] -> before_first p s = Some m -> contains p m = false.
Proof.
  intros Hp. revert m; induction s as [|c s IH]; intros m; simpl.
  - destruct (startswith p []) eqn:E; [|done]. intros [= <-].
    by destruct p.
  - destruct (startswith p (c :: s)) eqn:E.
    + intros [= <-]. by destruct p.
    + destruct (before_first p s) as [m'|] eqn:Em; [|done].
      intros [= <-]. simpl. rewrite (IH m') by done.
      rewrite orb_false_r.
      destruct (startswith p (c :: m')) eqn:E'; [|done].
      rewrite <- E. symmetry.
      apply (startswith_trans _ (c :: m')); [done|].
      simpl. rewrite N.eqb_refl. by apply before_first_prefix in Em.
Qed.

Lemma fence_body_clean lang r g :
  fence_body lang r = Some g -> contains fence g = false.
Proof.
  unfold fence_body.
  destruct (after_prefix (lang ++ [nl]) r) as [b|]; [|done].
  by apply before_first_clean.
Qed.

Lemma fence_match_at_clean s g :
  fence_match_at s = Some g -> contains fence g = false.
Proof.
  unfold fence_match_at.
  destruct (after_prefix fence s) as [r|]; [|done].
  destruct (fence_body (txt "python") r) eqn:E1;
    [intros [= <-]; by apply fence_body_clean in E1|].
  destruct (fence_body (txt "py") r) eqn:E2;
    [intros [= <-]; by apply fence_body_clean in E2|].
  apply fence_body_clean.
Qed.

Lemma first_fence_match_clean s g :
  first_fence_match s = Some g -> contains fence g = false.
Proof.
  induction s as [|c s IH]; cbn [first_fence_match];
    (destruct (fence_match_at _) eqn:E;
      [intros [= <-]; by apply fence_match_at_clean in E|]).
  - done.
  - exact IH.
Qed.

Lemma startswith_fence_lead s : startswith fence s = (3 <=? lead s)%nat.
Proof.
  unfold fence.
  destruct s as [|a [|b [|c s]]]; cbn [startswith lead]; try done;
    repeat (destruct (backtick =? _); cbn [andb Nat.leb]; try done).
Qed.

Lemma replace_from_drop old new k s :
  replace_from old new k s = replace_from old new 0 (drop k s).
Proof.
  revert k; induction s as [|c s IH]; intros [|k]; simpl; auto.
Qed.

Lemma replace_fence_eq s :
  replace fence [] s =
  if startswith fence s then replace fence [] (drop 3 s)
  else match s with
       | [] => []
       | c :: s' => c :: replace fence [] s'
       end.
Proof.
  unfold replace. destruct s as [|c s]; [done|].
  cbn [replace_from]. destruct (startswith fence (c :: s)); [|done].
  cbn [app length fence Nat.sub]. by rewrite replace_from_drop.
Qed.

Lemma lead_replace_fence s :
  (lead s < 3)%nat -> lead (replace fence [] s) = lead s.
Proof.
  induction s as [|c s IH]; intros Hs; [done|].
  rewrite replace_fence_eq, startswith_fence_lead.
  destruct (3 <=? lead (c :: s))%nat eqn:E;
    [apply Nat.leb_le in E; lia|].
  cbn [lead] in *. destruct (backtick =? c); [|done].
  rewrite IH; [done|lia].
Qed.

Lemma replace_fence_clean s : contains fence (replace fence [] s) = false.
Proof.
  remember (length s) as n eqn:Hn. revert s Hn.
  induction n as [n IH] using lt_wf_ind. intros s ->.
  rewrite replace_fence_eq.
  destruct (startswith fence s) eqn:E.
  - apply startswith_inv in E as [r ->].
    apply (IH (length r)); [|done]. simpl. lia.
  - destruct s as [|c s]; [done|].
    cbn [contains].
    rewrite (IH (length s)) by (simpl; lia || done).
    rewrite orb_false_r.
    rewrite startswith_fence_lead in *.
    apply Nat.leb_gt in E. apply Nat.leb_gt.
    cbn [lead] in *. destruct (backtick =? c); [|lia].
    rewrite lead_replace_fence; lia.
Qed.

Lemma remove_fences_clean s : contains fence (remove_fences s) = false.
Proof.
  unfold remove_fences.
  destruct (contains fence s) eqn:E; [|done].
  destruct (first_fence_match s) as [m|] eqn:Em.
  - apply contains_strip. by apply first_fence_match_clean in Em.
  - apply contains_strip, replace_fence_clean.
Qed.

Lemma remove_fences_id s : contains fence s = false -> remove_fences s = s.
Proof. unfold remove_fences. by intros ->. Qed.

End SanitizerLemmas.

(** *** Lines that look like code, before and after stripping *)

Section Preamble.

Implicit Types (s t u : text) (c : N) (ls : list text).

Lemma looks_like_code_strip a b :
  strip a = strip b -> looks_like_code a = looks_like_code b.
Proof. unfold looks_like_code. by intros ->. Qed.

Lemma looks_like_code_nil : looks_like_code [] = false.
Proof. reflexivity. Qed.

Lemma find_code_start_none k ls :
  any_code ls = false -> find_code_start k ls = 0%nat.
Proof.
  revert k; induction ls as [|l ls IH]; intros k; cbn; [done|].
  destruct (looks_like_code l); [done|]. apply IH.
Qed.

Lemma find_code_start_pos k ls n :
  find_code_start k ls = n -> n <> 0%nat ->
  exists j l rest,
    n = (k + j)%nat /\ drop j ls = l :: rest /\ looks_like_code l = true.
Proof.
  revert k; induction ls as [|l ls IH]; intros k; cbn; [congruence|].
  destruct (looks_like_code l) eqn:El.
  - intros <- _. exists 0%nat, l, ls. split; [lia|done].
  - intros H Hn. destruct (IH _ H Hn) as (j & l' & rest & -> & Hd & Hl).
    exists (S j), l', rest. split; [lia|done].
Qed.

Lemma find_code_start_ge k ls :
  any_code ls = true -> (k <= find_code_start k ls)%nat.
Proof.
  revert k; induction ls as [|l ls IH]; intros k; cbn; [done|].
  destruct (looks_like_code l); [done|].
  intros H. specialize (IH (S k) H). lia.
Qed.

Lemma split_hd_tl s :
  split nl s = hd [] (split nl s) :: tl (split nl s).
Proof. pose proof (split_not_nil nl s). by destruct (split nl s). Qed.

Lemma any_code_split s :
  any_code (split nl s) =
  looks_like_code (hd [] (split nl s)) || any_code (tl (split nl s)).
Proof. by rewrite (split_hd_tl s) at 1. Qed.

Lemma settled_head u :
  looks_like_code (hd [] (split nl u)) = true -> settled u.
Proof.
  unfold settled. rewrite (split_hd_tl u). cbn. by intros ->.
Qed.

Lemma settled_none u : any_code (split nl u) = false -> settled u.
Proof. apply find_code_start_none. Qed.

Lemma settled_inv u :
  settled u ->
  looks_like_code (hd [] (split nl u)) = true \/
  any_code (split nl u) = false.
Proof.
  unfold settled. rewrite any_code_split, (split_hd_tl u) at 1. cbn.
  destruct (looks_like_code (hd [] (split nl u))); [by left|].
  intros H. right. cbn.
  destruct (any_code (tl (split nl u))) eqn:E; [|done].
  apply (find_code_start_ge 1) in E. lia.
Qed.

Lemma rstrip_cons_cases c s :
  (isspace c = true /\ rstrip s = [] /\ rstrip (c :: s) = []) \/
  rstrip (c :: s) = c :: rstrip s.
Proof.
  cbn. destruct (rstrip s); [|by right].
  destruct (isspace c); [by left|by right].
Qed.

Lemma rstrip_lines t :
  rstrip (hd [] (split nl (rstrip t))) = rstrip (hd [] (split nl t)) /\
  (any_code (tl (split nl (rstrip t))) = true ->
   any_code (tl (split nl t)) = true).
Proof.
  induction t as [|c t [IH1 IH2]]; [done|].
  destruct (rstrip_cons_cases c t) as [(Hc & Ht & Hr) | Hr]; rewrite Hr.
  - split; [|done]. rewrite Ht in IH1.
    rewrite split_cons. destruct (c =? nl); [done|].
    cbn [hd]. cbn [rstrip]. by rewrite <- IH1, Hc.
  - rewrite !split_cons. destruct (c =? nl); cbn [hd tl].
    + split; [done|]. rewrite !any_code_split.
      rewrite (looks_like_code_strip _ _ (strip_rstrip_eq _ _ IH1)).
      destruct (looks_like_code (hd [] (split nl t))); [done|]. exact IH2.
    + split; [|done]. by apply rstrip_cons_eq.
Qed.

Lemma lstrip_lines t :
  (looks_like_code (hd [] (split nl t)) = true ->
   looks_like_code (hd [] (split nl (lstrip t))) = true) /\
  (any_code (split nl (lstrip t)) = true ->
   any_code (split nl t) = true).
Proof.
  induction t as [|c t [IH1 IH2]]; [done|].
  cbn [lstrip]. destruct (isspace c) eqn:Hc; [|done].
  rewrite split_cons. destruct (c =? nl); cbn [hd].
  - split; [done|]. intros H%IH2. unfold any_code in *.
    cbn [existsb]. by rewrite H, orb_true_r.
  - rewrite (looks_like_code_strip _ _ (strip_cons_space c _ Hc)).
    split; [done|]. intros H%IH2.
    rewrite any_code_split in H. unfold any_code in *. cbn [existsb].
    by rewrite (looks_like_code_strip _ _ (strip_cons_space c _ Hc)).
Qed.

Lemma strip_settled u : settled u -> settled (strip u).
Proof.
  intros [H|H]%settled_inv; unfold strip.
  - apply settled_head, lstrip_lines.
    destruct (rstrip_lines u) as [H1 _].
    by rewrite (looks_like_code_strip _ _ (strip_rstrip_eq _ _ H1)).
  - apply settled_none.
    destruct (any_code (split nl (lstrip (rstrip u)))) eqn:E; [|done].
    apply lstrip_lines in E. rewrite any_code_split in E, H.
    destruct (rstrip_lines u) as [H1 H2].
    rewrite (looks_like_code_strip _ _ (strip_rstrip_eq _ _ H1)) in E.
    destruct (looks_like_code (hd [] (split nl u))); [done|].
    cbn in *. apply H2 in E. congruence.
Qed.

Lemma drop_preamble_settled u : settled u -> drop_preamble u = u.
Proof. unfold settled, drop_preamble. by intros ->. Qed.

Lemma drop_preamble_is_settled t : settled (drop_preamble t).
Proof.
  unfold drop_preamble.
  destruct (find_code_start 0 (split nl t)) as [|i] eqn:E; [done|].
  cbn [Nat.ltb Nat.leb].
  apply find_code_start_pos in E as (j & l & rest & -> & Hd & Hl); [|done].
  cbn [Nat.add]. rewrite Hd. unfold settled. rewrite split_join.
  - cbn. by rewrite Hl.
  - done.
  - rewrite <- Hd. apply Forall_drop, split_no_sep.
Qed.

Lemma drop_preamble_suffix t : exists a, t = a ++ drop_preamble t.
Proof.
  unfold drop_preamble.
  destruct (find_code_start 0 (split nl t)) as [|i] eqn:E; [by exists []|].
  cbn [Nat.ltb Nat.leb].
  apply find_code_start_pos in E as (j & l & rest & Hj & Hd & Hl); [|done].
  assert (j = S i) as -> by lia.
  exists (join nl (take (S i) (split nl t)) ++ [nl]).
  rewrite <- (join_split nl t) at 1.
  rewrite <- (take_drop (S i) (split nl t)) at 1.
  rewrite join_app, <- app_assoc; [done| |by rewrite Hd].
  by rewrite (split_hd_tl t).
Qed.

Lemma drop_preamble_clean p t :
  contains p t = false -> contains p (drop_preamble t) = false.
Proof.
  intros H. destruct (contains p (drop_preamble t)) eqn:E; [|done].
  destruct (drop_preamble_suffix t) as [a Ha].
  apply (contains_infix _ a _ []) in E.
  rewrite app_nil_r, <- Ha in E. congruence.
Qed.

End Preamble.

Lemma clean_code_no_fence x : contains fence (_clean_code x) = false.
Proof.
  apply contains_strip, drop_preamble_clean, remove_fences_clean.
Qed.

Lemma clean_code_settled x : settled (_clean_code x).
Proof. apply strip_settled, drop_preamble_is_settled. Qed.

(** C7. The Code Sanitizer is idempotent: cleaning an already
    cleaned text changes nothing, for every input text. *)
Theorem clean_code_idempotent (x : text) :
  _clean_code (_clean_code x) = _clean_code x.
Proof.
  unfold _clean_code at 1.
  rewrite (remove_fences_id _ (clean_code_no_fence x)).
  rewrite (drop_preamble_settled _ (clean_code_settled x)).
  apply strip_idem.
Qed.

(** ** The Result Normalizer *)

Section Normalizer.

Implicit Types (df : DataFrame).

Lemma serialize_dataframe df :
  _serialize_result (VDataFrame df) =
  VList (row_record (df_columns df) <$> take 100 (df_rows df)).
Proof.
  cbn [_serialize_result]. unfold df_len, to_dict_records.
  destruct (100 <? length (df_rows df))%nat eqn:E; [done|].
  apply Nat.ltb_ge in E. by rewrite take_ge.
Qed.

(** C6. A tabular result is turned into the list of the records of
    its first 100 rows: a table with more than 100 rows gives exactly
    100 records, a table with at most 100 rows gives all of its rows;
    the function is total, so no error is raised. *)
Theorem serialize_result_row_cap df :
  let out := transport_rows (_serialize_result (VDataFrame df)) in
  _serialize_result (VDataFrame df) = VList out /\
  out = row_record (df_columns df) <$> take 100 (df_rows df) /\
  length out = Nat.min 100 (df_len df) /\
  (if (100 <? df_len df)%nat then length out = 100%nat
   else out = row_record (df_columns df) <$> df_rows df).
Proof.
  cbv zeta. rewrite serialize_dataframe. cbn [transport_rows].
  unfold df_len. repeat split.
  - by rewrite length_fmap, length_take.
  - destruct (100 <? length (df_rows df))%nat eqn:E.
    + apply Nat.ltb_lt in E. rewrite length_fmap, length_take. lia.
    + apply Nat.ltb_ge in E. by rewrite take_ge.
Qed.

Example serialize_500_rows :
  length (transport_rows (_serialize_result (VDataFrame (sample_table 500))))
  = 100%nat.
Proof. vm_compute. reflexivity. Qed.

Example serialize_2_rows :
  _serialize_result (VDataFrame (sample_table 2)) =
  VList [VDict [(txt "Line Item", VStr (txt "Revenue")); (txt "2024", VInt 0)];
         VDict [(txt "Line Item", VStr (txt "Revenue")); (txt "2024", VInt 1)]].
Proof. vm_compute. reflexivity. Qed.

Example serialize_nested :
  _serialize_result
    (VDict [(txt "growth", VNpFloat 0x1p-1%float);
            (txt "years", VNdArray [VNpInt 2023; VNpInt 2024]);
            (txt "table", VDataFrame (sample_table 101))]) =
  VDict [(txt "growth", VFloat 0x1p-1%float);
         (txt "years", VList [VInt 2023; VInt 2024]);
         (txt "table",
          VList (row_record [txt "Line Item"; txt "2024"] <$>
                 take 100 (df_rows (sample_table 101))))].
Proof. vm_compute. reflexivity. Qed.

End Normalizer.

(** ** The retry loop *)

Section Controller.

Context (W : World) (q : text) (d : list (text * loc)) (fd da : pyval).

Implicit Types (s : state) (e : exn) (code : option text)
  (le : option error_context) (attempt : nat).

Lemma run_attempt_unfold attempt le code s :
  run_attempt W q d fd da attempt le code s =
  match _generate_analysis_code W q d fd da
          (if (0 <? attempt)%nat then le else None) (attempt + 1) s with
  | (Raise e, s1) => handle attempt code e s1
  | (Return c, s1) =>
      match _execute_code W c d s1 with
      | (Raise e, s2) => handle attempt (Some c) e s2
      | (Return result, s2) =>
          match _generate_explanation W q c result s2 with
          | (Raise e, s3) => handle attempt (Some c) e s3
          | (Return expl, s3) =>
              (Return (Finished (success_result q c result expl attempt)), s3)
          end
      end
  end.
Proof.
  unfold run_attempt, try_except, bind, ret, raise, handle.
  destruct (_generate_analysis_code _ _ _ _ _ _ _ s) as [[c|e] s1]; [|done].
  destruct (_execute_code W c d s1) as [[result|e] s2]; [|done].
  by destruct (_generate_explanation W q c result s2) as [[expl|e] s3].
Qed.

Lemma handle_Exception attempt code e s :
  exn_is_Exception e = true ->
  handle attempt code e s =
  if (attempt =? max_attempts - 1)%nat then (Raise e, s)
  else (Return (Continue (last_error_of e code) code), s).
Proof.
  unfold handle, attempt_handler, raise, ret, last_error_of. intros ->.
  by destruct (attempt =? max_attempts - 1)%nat.
Qed.

Lemma handle_not_finished attempt code e s r s' :
  handle attempt code e s <> (Return (Finished r), s').
Proof.
  unfold handle, attempt_handler, raise, ret.
  destruct (exn_is_Exception e); [|done].
  by destruct (attempt =? max_attempts - 1)%nat.
Qed.

Lemma handle_last code e s p s' :
  handle (max_attempts - 1) code e s <> (Return p, s').
Proof.
  unfold handle, attempt_handler, raise, ret.
  by destruct (exn_is_Exception e).
Qed.

Lemma handle_raise attempt code e s e' s' :
  handle attempt code e s = (Raise e', s') -> e' = e /\ s' = s.
Proof.
  unfold handle, attempt_handler, raise, ret.
  destruct (exn_is_Exception e); [|by intros [= <- <-]].
  destruct (attempt =? max_attempts - 1)%nat; [by intros [= <- <-]|done].
Qed.


(** The last pass does not end with [continue]. *)
Lemma run_attempt_last le code s last_error code' s' :
  run_attempt W q d fd da (max_attempts - 1) le code s <>
  (Return (Continue last_error code'), s').
Proof.
  rewrite run_attempt_unfold.
  destruct (_generate_analysis_code _ _ _ _ _ _ _ s) as [[c|e] s1];
    [|apply handle_last].
  destruct (_execute_code W c d s1) as [[result|e] s2];
    [|apply handle_last].
  destruct (_generate_explanation W q c result s2) as [[expl|e] s3];
    [done|apply handle_last].
Qed.

Lemma run_attempt_faults attempt le code s e code' s' :
  attempt_faults W q d fd da attempt le code s e code' s' ->
  run_attempt W q d fd da attempt le code s =
  if (attempt =? max_attempts - 1)%nat then (Raise e, s')
  else (Return (Continue (last_error_of e code') code'), s').
Proof.
  intros [He [[Hg ->]|(c & s1 & Hg & Hx & ->)]];
    rewrite run_attempt_unfold, Hg; [|rewrite Hx];
    by apply handle_Exception.
Qed.

Lemma retry_loop_cons attempt rest le code s :
  retry_loop W q d fd da (attempt :: rest) le code s =
  match run_attempt W q d fd da attempt le code s with
  | (Return (Finished r), s') => (Return r, s')
  | (Return (Continue last_error code'), s') =>
      retry_loop W q d fd da rest (Some last_error) code' s'
  | (Raise e, s') => (Raise e, s')
  end.
Proof.
  cbn [retry_loop]. unfold bind, ret.
  by destruct (run_attempt W q d fd da attempt le code s) as [[[r|l c]|e] s'].
Qed.


End Controller.

(** ** The Table Loader inside [analyze] *)

Section Loader.

Context (W : World).

Lemma load_sheets_logs p names d s r s' :
  load_sheets W p names d s = (r, s') ->
  generation_log s' = generation_log s /\
  explanation_log s' = explanation_log s /\
  exec_log s' = exec_log s.
Proof.
  revert d s; induction names as [|n names IH]; intros d s; cbn [load_sheets].
  - unfold ret. by intros [= <- <-].
  - unfold bind, lift, alloc.
    destruct (read_excel W p n) as [df|e]; [|by intros [= <- <-]].
    intros H. by apply IH in H.
Qed.

Lemma load_excel_sheets_logs p s r s' :
  _load_excel_sheets W p s = (r, s') ->
  generation_log s' = generation_log s /\
  explanation_log s' = explanation_log s /\
  exec_log s' = exec_log s.
Proof.
  unfold _load_excel_sheets, bind, lift.
  destruct (ExcelFile W p) as [names|e]; [|by intros [= <- <-]].
  apply load_sheets_logs.
Qed.


End Loader.




(** ** Exhausted retries *)

(** C9. When the tables load and each of the three passes faults in
    generation or in execution, [analyze] returns a dictionary with
    [success] false, [attempts] 3 and [error] the message of the
    exception of the third pass. *)
Theorem analyze_exhausted (W : World) (q p : text) (fd da : pyval)
    (d : list (text * loc)) (s0 s1 s2 s3 s4 : state) (e1 e2 e3 : exn)
    (c1 c2 c3 : option text) :
  _load_excel_sheets W p s0 = (Return d, s1) ->
  _analyze_dataframes W d s1 = (Return da, s1) ->
  attempt_faults W q d fd da 0 None None s1 e1 c1 s2 ->
  attempt_faults W q d fd da 1 (Some (last_error_of e1 c1)) c1 s2 e2 c2 s3 ->
  attempt_faults W q d fd da 2 (Some (last_error_of e2 c2)) c2 s3 e3 c3 s4 ->
  exists r,
    analyze W q p fd s0 = (Return r, s4) /\
    field "success" r = Some (VBool false) /\
    field "attempts" r = Some (VInt 3) /\
    field "error" r = Some (VStr (exn_str e3)).
Proof.
  intros Hload Hsum H1 H2 H3.
  exists (failure_result q e3). repeat split.
  unfold analyze, try_except, bind. rewrite Hload, Hsum.
  change (seq 0 max_attempts) with [0; 1; 2]%nat.
  rewrite retry_loop_cons, (run_attempt_faults _ _ _ _ _ _ _ _ _ _ _ _ H1).
  cbn [Nat.eqb max_attempts Nat.sub].
  rewrite retry_loop_cons, (run_attempt_faults _ _ _ _ _ _ _ _ _ _ _ _ H2).
  cbn [Nat.eqb max_attempts Nat.sub].
  rewrite retry_loop_cons, (run_attempt_faults _ _ _ _ _ _ _ _ _ _ _ _ H3).
  cbn [Nat.eqb max_attempts Nat.sub].
  destruct H3 as [-> _]. reflexivity.
Qed.

Lemma analyze_exhausted_witness :
  exists r,
    analyze world_always_faulting (txt "total revenue") (txt "report.xlsx")
            no_context initial_state
    = (Return r,
       (analyze world_always_faulting (txt "total revenue")
                (txt "report.xlsx") no_context initial_state).2) /\
    field "success" r = Some (VBool false) /\
    field "attempts" r = Some (VInt 3) /\
    field "error" r =
      Some (VStr (execution_error_message zero_division)).
Proof.
  pose (W := world_always_faulting).
  pose (q := txt "total revenue").
  pose (e := Exception W (execution_error_message zero_division)).
  pose (loaded := _load_excel_sheets W (txt "report.xlsx") initial_state).
  pose (d := returned [] loaded).
  pose (da := returned VNone (_analyze_dataframes W d loaded.2)).
  pose (c := Some divide_code).
  pose (le := Some (last_error_of e c)).
  pose (g1 := (_generate_analysis_code W q d no_context da None 1 loaded.2).2).
  pose (s2 := (_execute_code W divide_code d g1).2).
  pose (g2 := (_generate_analysis_code W q d no_context da le 2 s2).2).
  pose (s3 := (_execute_code W divide_code d g2).2).
  pose (g3 := (_generate_analysis_code W q d no_context da le 3 s3).2).
  pose (s4 := (_execute_code W divide_code d g3).2).
  replace (analyze _ _ _ _ _).2 with s4 by (vm_compute; reflexivity).
  apply (analyze_exhausted W q (txt "report.xlsx") no_context da d
           initial_state loaded.2 s2 s3 s4 e e e c c c).
  - vm_compute. reflexivity.
  - vm_compute. reflexivity.
  - split; [reflexivity|]. right. exists divide_code, g1.
    repeat split; vm_compute; reflexivity.
  - split; [reflexivity|]. right. exists divide_code, g2.
    repeat split; vm_compute; reflexivity.
  - split; [reflexivity|]. right. exists divide_code, g3.
    repeat split; vm_compute; reflexivity.
Defined.

(** ** The shape of the returned dictionary *)




(** ** Success and the explanation step *)

Section Explanation.

Context (W : World) (q : text) (d : list (text * loc)) (fd da : pyval).

Lemma generate_explanation_logs c result s r s' :
  _generate_explanation W q c result s = (r, s') ->
  generation_log s' = generation_log s /\ exec_log s' = exec_log s /\
  heap s' = heap s.
Proof.
  unfold _generate_explanation, bind, lift, ret, call_chat_completion.
  destruct (py_get W result (txt "value") VNone); [|by intros [= <- <-]].
  destruct (json_dumps W _); [|by intros [= <- <-]].
  destruct (py_get W result (txt "output") (VStr [])); [|by intros [= <- <-]].
  destruct (chat_completion W _ _); by intros [= <- <-].
Qed.

(** C3 (amended). In a pass whose generation and execution succeed:
    if the explanation call succeeds too, the loop returns at once the
    success dictionary with [attempts] the number of the pass, and no
    generation or execution follows; if the explanation call raises,
    the pass is handled as a failed attempt: the last pass re-raises
    the fault, an earlier one goes on with the next pass and the fault
    as [last_error]. *)
Theorem success_stops_the_loop (attempt : nat) (rest : list nat)
    (le : option error_context) (code : option text) (s s1 s2 : state)
    (c : text) (result : pyval) :
  _generate_analysis_code W q d fd da
    (if (0 <? attempt)%nat then le else None) (attempt + 1) s
  = (Return c, s1) ->
  _execute_code W c d s1 = (Return result, s2) ->
  (forall expl s3,
     _generate_explanation W q c result s2 = (Return expl, s3) ->
     retry_loop W q d fd da (attempt :: rest) le code s
     = (Return (success_result q c result expl attempt), s3) /\
     field "success" (success_result q c result expl attempt)
     = Some (VBool true) /\
     field "attempts" (success_result q c result expl attempt)
     = Some (VInt (Z.of_nat (attempt + 1))) /\
     generation_log s3 = generation_log s1 /\
     exec_log s3 = exec_log s2) /\
  (forall e s3,
     _generate_explanation W q c result s2 = (Raise e, s3) ->
     exn_is_Exception e = true ->
     retry_loop W q d fd da (attempt :: rest) le code s
     = if (attempt =? max_attempts - 1)%nat then (Raise e, s3)
       else retry_loop W q d fd da rest
              (Some (last_error_of e (Some c))) (Some c) s3).
Proof.
  intros Hg Hx. split.
  - intros expl s3 He.
    rewrite retry_loop_cons, run_attempt_unfold, Hg, Hx, He.
    apply generate_explanation_logs in He as (Hgl & Hxl & _).
    repeat split; try done.
    rewrite Hgl.
    revert Hx. unfold _execute_code, bind, exec, raise, ret. cbn.
    destruct (eff_raised _) as [e|].
    + destruct (exn_is_Exception e); by intros [= <-].
    + by intros [= _ <-].
  - intros e s3 He Hexc.
    rewrite retry_loop_cons, run_attempt_unfold, Hg, Hx, He.
    rewrite handle_Exception by done.
    by destruct (attempt =? max_attempts - 1)%nat.
Qed.

End Explanation.

Lemma success_stops_the_loop_witness :
  exists result s3,
    analyze world_first_try (txt "total revenue") (txt "report.xlsx")
            no_context initial_state
    = (Return (success_result (txt "total revenue") constant_code result
                 (txt "The total is 25.") 0), s3) /\
    length (generation_log s3) = 1%nat /\ length (exec_log s3) = 1%nat.
Proof.
  pose (W := world_first_try).
  pose (q := txt "total revenue").
  pose (loaded := _load_excel_sheets W (txt "report.xlsx") initial_state).
  pose (d := returned [] loaded).
  pose (da := returned VNone (_analyze_dataframes W d loaded.2)).
  pose (s1 := (_generate_analysis_code W q d no_context da None 1 loaded.2).2).
  pose (executed := _execute_code W constant_code d s1).
  pose (result := returned VNone executed).
  pose (s3 := (_generate_explanation W q constant_code result executed.2).2).
  exists result, s3.
  destruct (success_stops_the_loop W q d no_context da 0 [1; 2]%nat None None
              loaded.2 s1 executed.2 constant_code result) as [Hok _].
  - vm_compute. reflexivity.
  - vm_compute. reflexivity.
  - destruct (Hok (txt "The total is 25.") s3) as (Hloop & _ & _ & Hg & Hx).
    + vm_compute. reflexivity.
    + split; [|split].
      * unfold analyze, try_except, bind.
        change (_load_excel_sheets world_first_try (txt "report.xlsx")
                  initial_state) with loaded.
        replace loaded with (Return d, loaded.2) by (vm_compute; reflexivity).
        replace (_analyze_dataframes world_first_try d loaded.2)
          with (Return da, loaded.2) by (vm_compute; reflexivity).
        change (seq 0 max_attempts) with [0; 1; 2]%nat.
        fold W q. rewrite Hloop. reflexivity.
      * rewrite Hg. vm_compute. reflexivity.
      * rewrite Hx. vm_compute. reflexivity.
Defined.

(** C3, as stated, fails: when every execution succeeds and the
    explanation service always fails, three codes are generated and
    executed and [analyze] returns a dictionary with [success]
    false. *)
Lemma success_stops_the_loop_counterexample :
  exists r s,
    analyze world_no_explanation (txt "total revenue") (txt "report.xlsx")
            no_context initial_state = (Return r, s) /\
    field "success" r = Some (VBool false) /\
    field "error" r = Some (VStr (txt "explanation service unavailable")) /\
    length (generation_log s) = 3%nat /\
    length (exec_log s) = 3%nat /\
    length (explanation_log s) = 3%nat /\
    (_execute_code world_no_explanation constant_code
       [(txt "income_statement", fresh_loc host_heap)]
       (mkState (<[fresh_loc host_heap := VDataFrame (sample_table 2)]>
                   host_heap) [] [] [])).1
    = Return (VDict [(txt "value", VInt 25); (txt "output", VStr []);
                     (txt "errors", VNone)]).
Proof.
  eexists _, _. vm_compute. repeat split; reflexivity.
Qed.

(** ** The Execution Sandbox *)

Section Sandbox.

Context (W : World).

Implicit Types (d : list (text * loc)) (s : state) (code : text).

Lemma namespace_update_lookup_ne (g : gmap (list N) N) d k :
  k ∉ dict_keys d -> namespace_update g d !! k = g !! k.
Proof.
  unfold namespace_update, dict_keys. revert g.
  induction d as [|[k' l] d IH]; intros g Hk; [done|].
  rewrite fmap_cons in Hk. apply not_elem_of_cons in Hk as [Hne Hk].
  cbn [foldl]. rewrite IH by done. cbn. by rewrite lookup_insert_ne.
Qed.

Lemma execute_code_state code d s :
  let g := with_builtins (exec_globals_of d) in
  let eff := python_exec W (length (exec_log s)) code g (heap s) in
  (_execute_code W code d s).2 =
  mkState (eff_heap eff) (generation_log s) (explanation_log s)
          (exec_log s ++ [(code, g)]).
Proof.
  unfold _execute_code, bind, exec, raise, ret. cbn.
  destruct (eff_raised _) as [e|]; [|done].
  by destruct (exn_is_Exception e).
Qed.

Lemma builtins_all_bound :
  Forall (fun x => is_Some (host_builtins !! x)) builtin_names.
Proof.
  apply Forall_forall. intros x Hx.
  assert (forallb (fun x => bool_decide (is_Some (host_builtins !! x)))
            builtin_names = true) as H by (vm_compute; reflexivity).
  rewrite forallb_forall in H. apply list_elem_of_In, H in Hx.
  by apply bool_decide_eq_true in Hx.
Qed.

(** C1 (the code does not meet it). The globals handed to the
    interpreter by [_execute_code] let the code resolve every built-in
    name of the host, whitelisted or not: [exec] binds [__builtins__]
    to the [builtins] module since the whitelist does not bind it. *)
Theorem sandbox_exposes_builtins code d s x :
  builtins_key ∉ dict_keys d ->
  x ∈ builtin_names ->
  exists g,
    exec_log (_execute_code W code d s).2 = exec_log s ++ [(code, g)] /\
    g !! builtins_key = Some loc_builtins /\
    is_Some (resolve g x).
Proof.
  intros Hd Hx. exists (with_builtins (exec_globals_of d)).
  split; [by rewrite execute_code_state|].
  assert (with_builtins (exec_globals_of d) !! builtins_key
          = Some loc_builtins) as Hb.
  { unfold with_builtins, exec_globals_of.
    rewrite namespace_update_lookup_ne by done.
    replace (safe_globals !! builtins_key) with (@None N)
      by (vm_compute; reflexivity).
    by rewrite lookup_insert_eq. }
  split; [done|]. unfold resolve. rewrite Hb.
  destruct (with_builtins (exec_globals_of d) !! x); [done|].
  rewrite N.eqb_refl.
  pose proof builtins_all_bound as H. rewrite Forall_forall in H. by apply H.
Qed.


Lemma analyze_raises_no_Exception q p fd s e s' :
  analyze W q p fd s = (Raise e, s') -> exn_is_Exception e = false.
Proof.
  unfold analyze, try_except, ret.
  destruct (bind _ _ s) as [[r|e0] s0]; [done|].
  destruct (exn_is_Exception e0) eqn:E; [done|]. by intros [= <- <-].
Qed.

(** C5 (amended). When the executed code ends with an exception [e]
    that is an [Exception], [_execute_code] catches it and raises a
    new [Exception] whose message is
    [Code execution error: ] followed by the message of [e] and by its
    trace; that exception reaches the retry loop, and [analyze] lets
    no [Exception] escape. *)
Theorem execute_code_fault code d s e :
  eff_raised (python_exec W (length (exec_log s)) code
                (with_builtins (exec_globals_of d)) (heap s)) = Some e ->
  exn_is_Exception e = true ->
  (_execute_code W code d s).1
  = Raise (Exception W (execution_error_message e)) /\
  exn_is_Exception (Exception W (execution_error_message e)) = true /\
  exn_str (Exception W (execution_error_message e))
  = txt "Code execution error: " ++ exn_str e ++ [nl; nl] ++
    txt "Traceback:" ++ [nl] ++ exn_tb e /\
  (forall q p fd s0 e0 s0',
     analyze W q p fd s0 = (Raise e0, s0') -> exn_is_Exception e0 = false).
Proof.
  intros He Hexc. repeat split.
  - unfold _execute_code, bind, exec, raise. cbn. by rewrite He, Hexc.
  - apply analyze_raises_no_Exception.
Qed.

End Sandbox.

Lemma sandbox_exposes_builtins_witness :
  exists g,
    exec_log (_execute_code world_first_try (txt "result = open")
                [(txt "income_statement", fresh_loc host_heap)]
                initial_state).2
    = [(txt "result = open", g)] /\
    g !! builtins_key = Some loc_builtins /\
    is_Some (resolve g (txt "open")).
Proof.
  apply (sandbox_exposes_builtins world_first_try (txt "result = open")
           [(txt "income_statement", fresh_loc host_heap)] initial_state
           (txt "open")).
  - apply (bool_decide_unpack _). vm_compute. exact I.
  - apply (bool_decide_unpack _). vm_compute. exact I.
Defined.

(** The name [open] is not whitelisted and is no table, and the
    executed code can still resolve it, as it can [eval] and
    [__import__]. *)
Example open_is_reachable :
  let g := with_builtins
             (exec_globals_of [(txt "income_statement", fresh_loc host_heap)]) in
  safe_globals !! txt "open" = None /\
  resolve g (txt "open") = Some (the_builtin "open") /\
  resolve g (txt "eval") = Some (the_builtin "eval") /\
  resolve g (txt "__import__") = Some (the_builtin "__import__") /\
  host_heap !! the_builtin "open" = Some (VFunction (txt "open")).
Proof. vm_compute. repeat split; reflexivity. Qed.

(** The globals before [exec] adds [__builtins__] are the whitelist
    and the tables. *)
Example globals_before_exec :
  dom (exec_globals_of [(txt "income_statement", fresh_loc host_heap)])
  = dom safe_globals ∪ {[txt "income_statement"]}.
Proof.
  apply set_eq. intros x. unfold exec_globals_of, namespace_update.
  cbn [foldl]. rewrite dom_insert. set_solver.
Qed.


Lemma execute_code_fault_witness :
  (_execute_code world_always_faulting divide_code
     [(txt "income_statement", fresh_loc host_heap)] initial_state).1
  = Raise (Exception world_always_faulting
             (execution_error_message zero_division)).
Proof.
  apply (execute_code_fault world_always_faulting divide_code
           [(txt "income_statement", fresh_loc host_heap)] initial_state
           zero_division).
  - vm_compute. reflexivity.
  - reflexivity.
Defined.

(** C5, as stated, fails: for a code that divides by zero
    [_execute_code] returns nothing; it raises. *)
Lemma execute_code_fault_counterexample :
  ~ exists r s,
      _execute_code world_always_faulting divide_code
        [(txt "income_statement", fresh_loc host_heap)] initial_state
      = (Return r, s).
Proof.
  intros (r & s & H). vm_compute in H. discriminate H.
Qed.

(** ** The prompt of a retry *)

Lemma app_reassoc_8 {A} (x1 x2 x3 x4 x5 x6 x7 x b : list A) :
  x1 ++ x2 ++ x3 ++ x4 ++ x5 ++ x6 ++ x7 ++ x ++ b =
  (x1 ++ x2 ++ x3 ++ x4 ++ x5 ++ x6 ++ x7) ++ x ++ b.
Proof. by rewrite <- !app_assoc. Qed.

Lemma app_reassoc_code {A} (a t0 err t1 c t2 b : list A) :
  a ++ (t0 ++ err ++ t1 ++ c ++ t2) ++ b =
  (a ++ t0 ++ err ++ t1) ++ c ++ (t2 ++ b).
Proof. by rewrite <- !app_assoc. Qed.

Lemma app_reassoc_error {A} (a t0 err t1 c t2 b : list A) :
  a ++ (t0 ++ err ++ t1 ++ c ++ t2) ++ b =
  (a ++ t0) ++ err ++ (t1 ++ c ++ t2 ++ b).
Proof. by rewrite <- !app_assoc. Qed.

Lemma Return_inj {A} (a b : A) : Return a = Return b -> a = b.
Proof. by intros [= ->]. Qed.

Section RetryPrompt.

Context (W : World) (q : text) (d : list (text * loc)) (fd da : pyval).

Lemma error_section_first le : error_section le 1 = [].
Proof. by destruct le. Qed.

Lemma error_section_retry ec attempt :
  (1 < attempt)%nat ->
  error_section (Some ec) attempt =
  error_section_text_0 ++ ec_error ec ++
  error_section_text_1 ++ code_text (ec_code ec) ++ error_section_text_2.
Proof.
  intros H. unfold error_section.
  by replace (1 <? attempt)%nat with true by (symmetry; by apply Nat.ltb_lt).
Qed.

(** The temperature of every retry is lower than that of the first
    attempt. *)
Lemma retry_temperature_lower attempt :
  (1 < attempt)%nat ->
  PrimFloat.ltb (generation_temperature attempt) (generation_temperature 1)
  = true.
Proof.
  intros H. unfold generation_temperature.
  by replace (1 <? attempt)%nat with true by (symmetry; by apply Nat.ltb_lt).
Qed.

Lemma analysis_prompt_contains section attempt prompt :
  analysis_prompt W q d fd da section attempt = Return prompt ->
  exists a b, prompt = a ++ section ++ b.
Proof.
  unfold analysis_prompt, outcome_bind.
  destruct (json_dumps W da) as [summary|]; [|done].
  destruct (metadata_field W fd (txt "company_name")) as [company|]; [|done].
  destruct (metadata_field W fd (txt "fiscal_year")) as [year|]; [|done].
  intros <-%Return_inj. eexists _, _. apply app_reassoc_8.
Qed.

(** The first request carries no section on a previous failure. *)
Lemma first_prompt_has_no_error_section le s :
  _generate_analysis_code W q d fd da (if (0 <? 0)%nat then le else None)
    (0 + 1) s
  = (prompt <- lift (analysis_prompt W q d fd da [] 1) ;;
     code <- call_code_generation W
               [(txt "system", system_message); (txt "user", prompt)]
               (generation_temperature 1) ;;
     ret (_clean_code (strip code)))%analyst s.
Proof.
  unfold _generate_analysis_code.
  cbn [Nat.ltb Nat.leb Nat.add error_section]. reflexivity.
Qed.

(** X17. After a pass whose code faulted in execution, the prompt of
    the next pass contains that code and the message of its fault. *)
Lemma retry_prompt_after_execution_fault attempt le code s c s1 e s2 :
  _generate_analysis_code W q d fd da
    (if (0 <? attempt)%nat then le else None) (attempt + 1) s
  = (Return c, s1) ->
  _execute_code W c d s1 = (Raise e, s2) ->
  exn_is_Exception e = true ->
  attempt <> (max_attempts - 1)%nat ->
  run_attempt W q d fd da attempt le code s
  = (Return (Continue (last_error_of e (Some c)) (Some c)), s2) /\
  forall prompt,
    analysis_prompt W q d fd da
      (error_section (Some (last_error_of e (Some c))) (S attempt + 1))
      (S attempt + 1) = Return prompt ->
    contains c prompt = true /\ contains (exn_str e) prompt = true.
Proof.
  intros Hg Hx He Hk. split.
  - rewrite (run_attempt_faults W q d fd da attempt le code s e (Some c) s2).
    + by apply Nat.eqb_neq in Hk as ->.
    + split; [done|]. right. by exists c, s1.
  - intros prompt [a [b ->]]%analysis_prompt_contains.
    rewrite error_section_retry by lia. cbn [last_error_of ec_error ec_code
      code_text].
    split; apply contains_iff; eexists _, _.
    + apply app_reassoc_code.
    + apply app_reassoc_error.
Qed.

(** After a pass whose generation faulted, [last_error] pairs the
    message of that fault with the code of an earlier pass, if there
    was one. *)
Lemma retry_context_after_generation_fault attempt le code s e s1 :
  _generate_analysis_code W q d fd da
    (if (0 <? attempt)%nat then le else None) (attempt + 1) s
  = (Raise e, s1) ->
  exn_is_Exception e = true ->
  attempt <> (max_attempts - 1)%nat ->
  run_attempt W q d fd da attempt le code s
  = (Return (Continue (last_error_of e code) code), s1).
Proof.
  intros Hg He Hk.
  rewrite (run_attempt_faults W q d fd da attempt le code s e code s1).
  - by apply Nat.eqb_neq in Hk as ->.
  - split; [done|]. by left.
Qed.

End RetryPrompt.

(** C8 (the code does not meet it). The first code divides by zero,
    the second generation request is refused, so that the second
    attempt has no code; the third request then presents the code of
    the first attempt as the failed code, next to the message of the
    second attempt. *)
Theorem retry_prompt_stale_code :
  let W := world_stale_code in
  let run := analyze W (txt "total revenue") (txt "report.xlsx") no_context
                     initial_state in
  let log := generation_log run.2 in
  field "attempts" (returned VNone run) = Some (VInt 3) /\
  length log = 3%nat /\
  code_generation W 0 [] (generation_temperature 1) = Return divide_code /\
  code_generation W 1 [] (generation_temperature 2)
  = Raise (fault "rate limit exceeded") /\
  (exists third,
     log !! 2%nat = Some third /\
     third.2 = generation_temperature 3 /\
     contains (txt "Error: rate limit exceeded" ++ error_section_text_1 ++
               divide_code ++ error_section_text_2)
              (user_prompt third) = true) /\
  (exists first, log !! 0%nat = Some first /\
     contains (txt "PREVIOUS ATTEMPT FAILED") (user_prompt first) = false).
Proof.
  cbv zeta.
  split; [vm_compute; reflexivity|].
  split; [vm_compute; reflexivity|].
  split; [vm_compute; reflexivity|].
  split; [vm_compute; reflexivity|].
  split.
  - eexists. split; [vm_compute; reflexivity|].
    split; vm_compute; reflexivity.
  - eexists. split; vm_compute; reflexivity.
Qed.

(** ** Runs of the whole loop *)

(** A first attempt that works: one generation, one execution, one
    explanation. *)
Example run_first_try :
  let run := analyze world_first_try (txt "total revenue")
                     (txt "report.xlsx") no_context initial_state in
  field "success" (returned VNone run) = Some (VBool true) /\
  field "attempts" (returned VNone run) = Some (VInt 1) /\
  field "result" (returned VNone run)
  = Some (VDict [(txt "value", VInt 25); (txt "output", VStr []);
                 (txt "errors", VNone)]) /\
  length (generation_log run.2) = 1%nat /\
  length (explanation_log run.2) = 1%nat.
Proof. vm_compute. repeat split; reflexivity. Qed.

(** A code that names a table the workbook does not have faults; the
    second prompt carries the message and the code, and the second
    attempt succeeds. *)
Example run_missing_table :
  let run := analyze world_missing_table (txt "row count")
                     (txt "report.xlsx") no_context initial_state in
  field "success" (returned VNone run) = Some (VBool true) /\
  field "attempts" (returned VNone run) = Some (VInt 2) /\
  contains (txt "name 'income_statement' is not defined")
    (default [] ((user_prompt <$> generation_log run.2) !! 1%nat)) = true /\
  contains count_rows_code
    (default [] ((user_prompt <$> generation_log run.2) !! 1%nat)) = true.
Proof. vm_compute. repeat split; reflexivity. Qed.

(** A code that does not bind [result] is no fault: the value is
    [None] and the analysis succeeds. *)
Example run_without_result :
  let run := analyze world_no_result (txt "drop the rows")
                     (txt "report.xlsx") no_context initial_state in
  field "success" (returned VNone run) = Some (VBool true) /\
  field "result" (returned VNone run)
  = Some (VDict [(txt "value", VNone); (txt "output", VStr []);
                 (txt "errors", VNone)]).
Proof. vm_compute. repeat split; reflexivity. Qed.

(** Sheet names become table names. *)
Example normalize_sheet_name :
  normalize_name world_first_try (txt "Profit & Loss - Q1")
  = txt "profit_and_loss___q1".
Proof. vm_compute. reflexivity. Qed.

(** * Further properties of the code *)


(** ** More on the Code Sanitizer *)

Section SanitizerExtras.

Implicit Types (s x t : text) (c : N).

(** X1. Whatever the input, the cleaned code contains no fence
    (three backticks in a row). *)
Theorem clean_code_never_fenced x : contains fence (_clean_code x) = false.
Proof. apply clean_code_no_fence. Qed.

Lemma lstrip_head s c : head (lstrip s) = Some c -> isspace c = false.
Proof.
  induction s as [|a s IH]; [by cbn|]. cbn [lstrip].
  destruct (isspace a) eqn:E; [exact IH|]. cbn. by intros [= <-].
Qed.

Lemma rstrip_last s c : last (rstrip s) = Some c -> isspace c = false.
Proof.
  induction s as [|a s IH]; [by cbn|]. cbn [rstrip].
  destruct (rstrip s) as [|b r] eqn:E.
  - destruct (isspace a) eqn:Ea; [done|]. cbn. by intros [= <-].
  - rewrite last_cons. destruct (last (b :: r)) eqn:El;
      [|by apply last_None in El].
    intros [= <-]. by apply IH.
Qed.

(** X2. The cleaned code is stripped: stripping it again changes
    nothing, and neither its first nor its last character is white
    space. *)
Theorem clean_code_is_stripped x c :
  head (_clean_code x) = Some c \/ last (_clean_code x) = Some c ->
  isspace c = false /\ strip (_clean_code x) = _clean_code x.
Proof.
  intros H. split; [|apply strip_idem].
  destruct H as [H|H]; unfold _clean_code in H.
  - by apply lstrip_head in H.
  - unfold strip in H. rewrite <- rstrip_lstrip in H. by apply rstrip_last in H.
Qed.

(** X3. A text without fence whose first line looks like code, or in
    which no line looks like code, is only stripped. *)
Theorem clean_code_keeps_plain_text x :
  contains fence x = false ->
  looks_like_code (hd [] (split nl x)) = true \/
  any_code (split nl x) = false ->
  _clean_code x = strip x.
Proof.
  intros Hf H. unfold _clean_code.
  rewrite (remove_fences_id _ Hf), drop_preamble_settled; [done|].
  destruct H; [by apply settled_head|by apply settled_none].
Qed.

Lemma after_prefix_app p s : after_prefix p (p ++ s) = Some s.
Proof. induction p as [|a p IH]; [done|]. cbn. by rewrite N.eqb_refl. Qed.

Lemma before_first_fence body post :
  backtick ∉ body -> before_first fence (body ++ fence ++ post) = Some body.
Proof.
  induction body as [|c body IH]; intros H; [done|].
  apply not_elem_of_cons in H as [Hc H].
  cbn [app before_first]. unfold fence at 1. cbn [startswith].
  replace (backtick =? c) with false
    by (symmetry; apply N.eqb_neq; congruence).
  cbn [andb]. by rewrite IH.
Qed.

Lemma fence_match_at_block lang body post :
  lang ∈ [txt "python"; txt "py"; []] ->
  backtick ∉ body ->
  fence_match_at (fence ++ lang ++ [nl] ++ body ++ fence ++ post) = Some body.
Proof.
  intros Hl Hb. unfold fence_match_at. rewrite after_prefix_app.
  assert (forall r, fence_body lang (lang ++ [nl] ++ r)
                    = before_first fence r) as Hbody.
  { intros r. unfold fence_body.
    by rewrite (app_assoc lang [nl] r), after_prefix_app. }
  pose proof (before_first_fence body post Hb) as Hbf.
  repeat (apply elem_of_cons in Hl as [->|Hl]).
  - by rewrite Hbody, Hbf.
  - replace (fence_body (txt "python") _) with (@None text) by reflexivity.
    by rewrite Hbody, Hbf.
  - replace (fence_body (txt "python") _) with (@None text) by reflexivity.
    replace (fence_body (txt "py") _) with (@None text) by reflexivity.
    by rewrite Hbody, Hbf.
  - by apply elem_of_nil in Hl.
Qed.

Lemma first_fence_match_unfold s :
  first_fence_match s =
  match fence_match_at s with
  | Some g => Some g
  | None =>
      match s with
      | [] => None
      | _ :: s' => first_fence_match s'
      end
  end.
Proof. by destruct s. Qed.

Lemma first_fence_match_block pre lang body post :
  backtick ∉ pre ->
  lang ∈ [txt "python"; txt "py"; []] ->
  backtick ∉ body ->
  first_fence_match (pre ++ fence ++ lang ++ [nl] ++ body ++ fence ++ post)
  = Some body.
Proof.
  intros Hp Hl Hb. induction pre as [|c pre IH].
  - rewrite first_fence_match_unfold. change ([] ++ ?x) with x.
    by rewrite fence_match_at_block.
  - apply not_elem_of_cons in Hp as [Hc Hp].
    rewrite first_fence_match_unfold. rewrite <- app_comm_cons.
    replace (fence_match_at (c :: _)) with (@None text); [by apply IH|].
    unfold fence_match_at, fence. cbn [after_prefix].
    by replace (backtick =? c) with false
      by (symmetry; apply N.eqb_neq; congruence).
Qed.

(** X4. When the text holds a fenced block (opened by three
    backticks, an optional [python] or [py] and a newline) and has no
    backtick before the block or inside it, the first step keeps the
    stripped content of the block and drops what stands before and
    after it. *)
Theorem remove_fences_keeps_first_block pre lang body post :
  backtick ∉ pre ->
  lang ∈ [txt "python"; txt "py"; []] ->
  backtick ∉ body ->
  remove_fences (pre ++ fence ++ lang ++ [nl] ++ body ++ fence ++ post)
  = strip body.
Proof.
  intros Hp Hl Hb. unfold remove_fences.
  rewrite first_fence_match_block by done.
  replace (contains fence _) with true; [done|].
  symmetry. apply contains_iff. by exists pre, (lang ++ [nl] ++ body ++ fence ++ post).
Qed.

(** X5. The second step removes whole leading lines only: what it
    returns is the end of its input, and when it removed something,
    what it removed ends with a newline and the first line left looks
    like code. *)
Theorem drop_preamble_drops_leading_lines t :
  exists a,
    t = a ++ drop_preamble t /\
    (a = [] \/
     (exists a', a = a' ++ [nl]) /\
     looks_like_code (hd [] (split nl (drop_preamble t))) = true).
Proof.
  unfold drop_preamble.
  destruct (find_code_start 0 (split nl t)) as [|i] eqn:E;
    [exists []; split; [done|by left]|].
  cbn [Nat.ltb Nat.leb].
  apply find_code_start_pos in E as (j & l & rest & Hj & Hd & Hl); [|done].
  assert (j = S i) as -> by lia.
  exists (join nl (take (S i) (split nl t)) ++ [nl]). split.
  - rewrite <- (join_split nl t) at 1.
    rewrite <- (take_drop (S i) (split nl t)) at 1.
    rewrite join_app, <- app_assoc; [done| |by rewrite Hd].
    by rewrite (split_hd_tl t).
  - right. split; [by eexists|].
    rewrite Hd, split_join; [done|done|].
    rewrite <- Hd. apply Forall_drop, split_no_sep.
Qed.

End SanitizerExtras.

Lemma clean_code_is_stripped_witness :
  isspace 114 = false /\
  strip (_clean_code (txt "  result = 1  ")) = _clean_code (txt "  result = 1  ").
Proof.
  apply (clean_code_is_stripped (txt "  result = 1  ") 114).
  left. vm_compute. reflexivity.
Defined.

Lemma clean_code_keeps_plain_text_witness :
  _clean_code (txt "result = 1" ++ [nl] ++ txt "print(result) ")
  = strip (txt "result = 1" ++ [nl] ++ txt "print(result) ").
Proof.
  apply clean_code_keeps_plain_text.
  - vm_compute. reflexivity.
  - left. vm_compute. reflexivity.
Defined.

Lemma remove_fences_keeps_first_block_witness :
  remove_fences (txt "Here is the code:" ++ fence ++ txt "python" ++ [nl] ++
                 txt "result = 1" ++ fence ++ txt " Done.")
  = strip (txt "result = 1").
Proof.
  apply (remove_fences_keeps_first_block (txt "Here is the code:")
           (txt "python") (txt "result = 1") (txt " Done.")).
  - apply (bool_decide_unpack _). vm_compute. exact I.
  - apply (bool_decide_unpack _). vm_compute. exact I.
  - apply (bool_decide_unpack _). vm_compute. exact I.
Defined.


(** ** More on the Result Normalizer *)

Section NormalizerExtras.

(** Induction on values, with the elements of lists, dictionaries and
    arrays. *)
Lemma pyval_nested_ind (P : pyval -> Prop) :
  P VNone ->
  (forall b, P (VBool b)) ->
  (forall z, P (VInt z)) ->
  (forall f, P (VFloat f)) ->
  (forall s, P (VStr s)) ->
  (forall l, Forall P l -> P (VList l)) ->
  (forall d, Forall (fun kv => P kv.2) d -> P (VDict d)) ->
  (forall df, P (VDataFrame df)) ->
  (forall index values, P (VSeries index values)) ->
  (forall z, P (VNpInt z)) ->
  (forall f, P (VNpFloat f)) ->
  (forall a, Forall P a -> P (VNdArray a)) ->
  (forall name, P (VFunction name)) ->
  (forall name, P (VModule name)) ->
  forall v, P v.
Proof.
  intros HNone HBool HInt HFloat HStr HList HDict HDf HSer HNpI HNpF HArr
         HFun HMod.
  fix IH 1. intros [|b|z|f|s|l|d|df|index values|z|f|a|name|name].
  - exact HNone.
  - apply HBool.
  - apply HInt.
  - apply HFloat.
  - apply HStr.
  - apply HList. induction l as [|x l IHl]; constructor; [apply IH|apply IHl].
  - apply HDict. induction d as [|[k x] d IHd]; constructor;
      [apply IH|apply IHd].
  - apply HDf.
  - apply HSer.
  - apply HNpI.
  - apply HNpF.
  - apply HArr. induction a as [|x a IHa]; constructor; [apply IH|apply IHa].
  - apply HFun.
  - apply HMod.
Qed.

Lemma fmap_id_Forall {A} (f : A -> A) (l : list A) :
  Forall (fun x => f x = x) l -> f <$> l = l.
Proof. induction 1; cbn; by f_equal. Qed.

Lemma serialize_result_json_like (v : pyval) :
  json_like v = true -> _serialize_result v = v.
Proof.
  induction v as [| | | | |l IH|d IH| | | | |a IH| |] using pyval_nested_ind;
    try done; cbn [json_like _serialize_result]; intros H.
  - f_equal. apply fmap_id_Forall.
    rewrite forallb_forall in H. rewrite Forall_forall in IH |- *.
    intros x Hx. apply IH; [done|]. by apply H, list_elem_of_In.
  - f_equal. apply fmap_id_Forall.
    rewrite forallb_forall in H. rewrite Forall_forall in IH |- *.
    intros [k x] Hx. cbn. f_equal. apply (IH _ Hx).
    by apply (H (k, x)), list_elem_of_In.
Qed.

(** X6. A value made only of scalars, lists and dictionaries is
    returned as it is. *)
Theorem serialize_result_keeps_transport_values (v : pyval) :
  json_like v = true -> _serialize_result v = v.
Proof. apply serialize_result_json_like. Qed.







End NormalizerExtras.

Lemma serialize_result_keeps_transport_values_witness :
  _serialize_result
    (VDict [(txt "growth", VFloat 0x1p-1%float);
            (txt "years", VList [VInt 2023; VInt 2024]);
            (txt "note", VNone)])
  = VDict [(txt "growth", VFloat 0x1p-1%float);
           (txt "years", VList [VInt 2023; VInt 2024]);
           (txt "note", VNone)].
Proof. apply serialize_result_keeps_transport_values. reflexivity. Defined.


(** A function object is passed through as it is: the result is then
    no transport value. *)
Example serialize_function_passes_through :
  _serialize_result (VList [VFunction (txt "len")]) = VList [VFunction (txt "len")].
Proof. reflexivity. Qed.


(** ** More on the Table Loader *)

Section Cleaning.






End Cleaning.


Section DictLemmas.

Context {A : Type}.
Implicit Types (d : list (text * A)) (k : text).

Lemma dict_get_set_eq k (v : A) d : dict_get k (dict_set k v d) = Some v.
Proof.
  induction d as [|[k' v'] d IH]; cbn.
  - by rewrite bool_decide_eq_true_2.
  - destruct (bool_decide (k' = k)) eqn:E; cbn.
    + by rewrite bool_decide_eq_true_2.
    + by rewrite E.
Qed.

Lemma dict_get_set_ne k k' (v : A) d :
  k' <> k -> dict_get k' (dict_set k v d) = dict_get k' d.
Proof.
  intros Hne. induction d as [|[k0 v0] d IH]; cbn.
  - by rewrite bool_decide_eq_false_2.
  - destruct (bool_decide (k0 = k)) eqn:E; cbn.
    + apply bool_decide_eq_true_1 in E as ->.
      by rewrite !bool_decide_eq_false_2.
    + by rewrite IH.
Qed.

Lemma dict_keys_set k (v : A) d :
  dict_keys (dict_set k v d) =
  if bool_decide (k ∈ dict_keys d) then dict_keys d else dict_keys d ++ [k].
Proof.
  unfold dict_keys. induction d as [|[k' v'] d IH]; cbn; [done|].
  destruct (bool_decide (k' = k)) eqn:E; cbn.
  - apply bool_decide_eq_true_1 in E as ->.
    rewrite bool_decide_eq_true_2; [done|left].
  - apply bool_decide_eq_false_1 in E. rewrite IH.
    destruct (bool_decide (k ∈ d.*1)) eqn:E'.
    + apply bool_decide_eq_true_1 in E'.
      rewrite bool_decide_eq_true_2; [done|by right].
    + apply bool_decide_eq_false_1 in E'.
      rewrite bool_decide_eq_false_2; [done|].
      intros [?|?]%elem_of_cons; congruence.
Qed.

Lemma dict_keys_set_NoDup k (v : A) d :
  NoDup (dict_keys d) -> NoDup (dict_keys (dict_set k v d)).
Proof.
  intros H. rewrite dict_keys_set. case_bool_decide; [done|].
  apply NoDup_app. repeat split; [done| |apply NoDup_singleton].
  intros x Hx ->%list_elem_of_singleton. done.
Qed.

Lemma dict_get_Some_key k (v : A) d : dict_get k d = Some v -> k ∈ dict_keys d.
Proof.
  unfold dict_keys. induction d as [|[k' v'] d IH]; cbn; [done|].
  case_bool_decide; [subst; left|right; auto].
Qed.

Lemma dict_get_None_key k d : dict_get k d = None <-> k ∉ dict_keys d.
Proof.
  unfold dict_keys. induction d as [|[k' v'] d IH]; cbn.
  - split; [intros _; apply not_elem_of_nil|done].
  - case_bool_decide as E.
    + subst. split; [done|]. intros H. exfalso. apply H. left.
    + rewrite IH, not_elem_of_cons. naive_solver.
Qed.

End DictLemmas.

Section FreshLoc.

Lemma fresh_loc_above (h : gmap N pyval) l v :
  h !! l = Some v -> l < fresh_loc h.
Proof.
  unfold fresh_loc.
  assert (forall l v, h !! l = Some v ->
            l <= map_fold (fun l _ m => N.max l m) 0 h) as H; [|intros Hl;
    apply H in Hl; lia].
  clear l v.
  apply (map_fold_weak_ind
           (fun r (m : gmap N pyval) => forall l v, m !! l = Some v -> l <= r)).
  - intros l v. by rewrite lookup_empty.
  - intros i x m r Hi IH l v. destruct (decide (i = l)) as [->|Hne].
    + intros _. lia.
    + rewrite lookup_insert_ne by done. intros Hl%IH. lia.
Qed.

Lemma fresh_loc_fresh (h : gmap N pyval) : h !! fresh_loc h = None.
Proof.
  destruct (h !! fresh_loc h) as [v|] eqn:E; [|done].
  apply fresh_loc_above in E. lia.
Qed.

End FreshLoc.

Section LoaderInvariant.

Context (W : World) (p : text).

Lemma last_sheet_named_snoc k done n :
  last_sheet_named W k (done ++ [n]) =
  if bool_decide (normalize_name W n = k) then Some n
  else last_sheet_named W k done.
Proof.
  unfold last_sheet_named. rewrite List.filter_app. cbn [List.filter].
  case_bool_decide; [by rewrite last_snoc|by rewrite app_nil_r].
Qed.

Lemma load_sheets_loaded names done d s d' s' :
  loaded W p done d s ->
  load_sheets W p names d s = (Return d', s') ->
  loaded W p (done ++ names) d' s'.
Proof.
  revert done d s. induction names as [|n names IH]; intros done d s Hinv.
  - cbn. unfold ret. intros [= <- <-]. by rewrite app_nil_r.
  - cbn [load_sheets]. unfold bind at 1, lift.
    destruct (read_excel W p n) as [df|e] eqn:Hread; [|done].
    unfold bind, alloc. intros H.
    replace (done ++ n :: names) with ((done ++ [n]) ++ names)
      by by rewrite <- app_assoc.
    eapply IH; [|exact H]. clear H IH.
    destruct Hinv as (Hnd & Hkeys & Htab). split; [|split].
    + by apply dict_keys_set_NoDup.
    + intros k. rewrite dict_keys_set, fmap_app, elem_of_app. cbn.
      rewrite list_elem_of_singleton. case_bool_decide as Hin.
      * rewrite Hkeys. split; [by left|]. intros [?| ->]; [done|].
        by apply Hkeys.
      * rewrite elem_of_app, list_elem_of_singleton, Hkeys. naive_solver.
    + intros k l. cbn [heap]. rewrite last_sheet_named_snoc.
      case_bool_decide as Hk.
      * subst k. rewrite dict_get_set_eq. intros [= <-].
        exists n, df. by rewrite lookup_insert_eq.
      * rewrite dict_get_set_ne by done. intros Hl.
        destruct (Htab _ _ Hl) as (sheet & df0 & Hs & Hr & Hh).
        exists sheet, df0. repeat split; try done.
        rewrite lookup_insert_ne; [done|].
        intros <-. by rewrite fresh_loc_fresh in Hh.
Qed.

Lemma load_excel_sheets_loaded names s d s' :
  ExcelFile W p = Return names ->
  _load_excel_sheets W p s = (Return d, s') ->
  loaded W p names d s'.
Proof.
  intros Hn. unfold _load_excel_sheets, bind, lift. rewrite Hn.
  apply (load_sheets_loaded names [] [] s).
  split; [constructor|]. split; [done|]. done.
Qed.


(** X9. The loader binds one table per normalized sheet name: the
    names of [df_dict] are the normalized sheet names, each once, and
    when several sheets have the same normalized name the table of
    the last of them is the one bound. *)
Theorem loader_last_sheet_wins names s d s' :
  ExcelFile W p = Return names ->
  _load_excel_sheets W p s = (Return d, s') ->
  NoDup (dict_keys d) /\
  (forall k, k ∈ dict_keys d <-> k ∈ normalize_name W <$> names) /\
  (length d <= length names)%nat /\
  forall k l, dict_get k d = Some l ->
    exists sheet df,
      last_sheet_named W k names = Some sheet /\
      read_excel W p sheet = Return df /\
      heap s' !! l = Some (VDataFrame (clean_table df)).
Proof.
  intros Hn Hload.
  destruct (load_excel_sheets_loaded _ _ _ _ Hn Hload) as (Hnd & Hkeys & Htab).
  repeat split; try done; try apply Hkeys.
  rewrite <- (length_fmap (normalize_name W) names).
  unfold dict_keys in *. rewrite <- (length_fmap fst d).
  apply submseteq_length, NoDup_submseteq; [done|].
  intros k. apply Hkeys.
Qed.

End LoaderInvariant.

Section NormalizeName.

Lemma replace_single o new a s :
  replace [o] new (a :: s) =
  if o =? a then new ++ replace [o] new s else a :: replace [o] new s.
Proof.
  unfold replace. cbn [replace_from startswith length Nat.sub].
  by destruct (o =? a).
Qed.

Lemma replace_single_removes o new s : o ∉ new -> o ∉ replace [o] new s.
Proof.
  intros Hn. induction s as [|a s IH]; [apply not_elem_of_nil|].
  rewrite replace_single. destruct (o =? a) eqn:E.
  - by apply not_elem_of_app.
  - apply not_elem_of_cons. split; [|done].
    intros ->. by rewrite N.eqb_refl in E.
Qed.

Lemma replace_single_keeps_out c o new s :
  c ∉ new -> c ∉ s -> c ∉ replace [o] new s.
Proof.
  intros Hn. induction s as [|a s IH]; intros Hs; [apply not_elem_of_nil|].
  apply not_elem_of_cons in Hs as [Ha Hs].
  rewrite replace_single. destruct (o =? a).
  - apply not_elem_of_app. auto.
  - apply not_elem_of_cons. auto.
Qed.

(** X10. A normalized sheet name contains no space, no ampersand and
    no hyphen, whatever the sheet name. *)
Theorem normalize_name_removes_separators (W : World) (sheet_name : text) :
  (32 ∉ normalize_name W sheet_name) /\
  (38 ∉ normalize_name W sheet_name) /\
  (45 ∉ normalize_name W sheet_name).
Proof.
  unfold normalize_name.
  change (txt "-") with [45]. change (txt "&") with [38].
  change (txt " ") with [32]. change (txt "_") with [95].
  change (txt "and") with [97; 110; 100].
  assert (forall c : N, c <> 95 -> c ∉ [95]) as H1.
  { intros c Hc ->%list_elem_of_singleton. done. }
  assert (forall c : N, c <> 97 -> c <> 110 -> c <> 100 -> c ∉ [97; 110; 100])
    as H3.
  { intros c ? ? ? H. repeat (apply elem_of_cons in H as [->|H]; [done|]).
    by apply elem_of_nil in H. }
  repeat split.
  - apply replace_single_keeps_out; [by apply H1|].
    apply replace_single_keeps_out; [by apply H3|].
    apply replace_single_removes. by apply H1.
  - apply replace_single_keeps_out; [by apply H1|].
    apply replace_single_removes. by apply H3.
  - apply replace_single_removes. by apply H1.
Qed.

End NormalizeName.


(** ** More on the Execution Sandbox *)

Section SandboxExtras.

Lemma namespace_update_lookup (g : gmap (list N) N) (d : list (text * loc)) k :
  NoDup (dict_keys d) ->
  namespace_update g d !! k =
  match dict_get k d with
  | Some l => Some l
  | None => g !! k
  end.
Proof.
  unfold namespace_update, dict_keys. revert g.
  induction d as [|[k' l'] d IH]; intros g Hnd; [done|].
  rewrite fmap_cons in Hnd. cbn [fst] in Hnd.
  apply NoDup_cons in Hnd as [Hk' Hnd].
  cbn [foldl dict_get fst snd]. rewrite IH by done.
  destruct (bool_decide (k' = k)) eqn:E.
  - apply bool_decide_eq_true_1 in E as ->.
    apply dict_get_None_key in Hk'. rewrite Hk'.
    by rewrite lookup_insert_eq.
  - apply bool_decide_eq_false_1 in E.
    destruct (dict_get k d); [done|]. by rewrite lookup_insert_ne.
Qed.

(** X11. In the globals the sandbox builds, a table name is bound to
    its table even when the name is one of the whitelisted names,
    and every other name is bound as in the whitelist: a sheet called
    [len] or [pd] hides the primitive of that name. *)
Theorem exec_globals_bindings (d : list (text * loc)) (k : text) :
  NoDup (dict_keys d) ->
  exec_globals_of d !! k =
  match dict_get k d with
  | Some l => Some l
  | None => safe_globals !! k
  end.
Proof. apply namespace_update_lookup. Qed.

End SandboxExtras.

Lemma exec_globals_bindings_witness :
  exec_globals_of [(txt "len", 300)] !! txt "len" = Some 300 /\
  safe_globals !! txt "len" = Some (the_builtin "len").
Proof.
  split; [|vm_compute; reflexivity].
  rewrite (exec_globals_bindings [(txt "len", 300)] (txt "len")).
  - reflexivity.
  - apply NoDup_singleton.
Defined.

(** ** More on the retry loop *)

Section ControllerExtras.

Context (W : World) (q : text) (d : list (text * loc)) (fd da : pyval).

Implicit Types (s : state) (e : exn) (code : option text)
  (le : option error_context) (attempt : nat).

Lemma generate_analysis_code_logs le attempt s r s' :
  _generate_analysis_code W q d fd da le attempt s = (r, s') ->
  heap s' = heap s /\ exec_log s' = exec_log s /\
  explanation_log s' = explanation_log s /\
  (length (generation_log s') <= length (generation_log s) + 1)%nat /\
  (length (generation_log s) <= length (generation_log s'))%nat.
Proof.
  unfold _generate_analysis_code, bind, lift, ret, call_code_generation.
  destruct (analysis_prompt _ _ _ _ _ _ _) as [prompt|e].
  - destruct (code_generation W _ _ _); intros [= <- <-]; cbn;
      rewrite length_app; cbn; repeat split; lia.
  - intros [= <- <-]. repeat split; lia.
Qed.

Lemma generate_analysis_code_clean le attempt s c s' :
  _generate_analysis_code W q d fd da le attempt s = (Return c, s') ->
  exists raw, c = _clean_code (strip raw).
Proof.
  unfold _generate_analysis_code, bind, lift, ret, call_code_generation.
  destruct (analysis_prompt _ _ _ _ _ _ _) as [prompt|e]; [|done].
  destruct (code_generation W _ _ _) as [raw|e]; [|done].
  intros [= <- <-]. by exists raw.
Qed.

Lemma generate_analysis_code_called le attempt s c s' :
  _generate_analysis_code W q d fd da le attempt s = (Return c, s') ->
  length (generation_log s') = S (length (generation_log s)).
Proof.
  unfold _generate_analysis_code, bind, lift, ret, call_code_generation.
  destruct (analysis_prompt _ _ _ _ _ _ _) as [prompt|e]; [|done].
  destruct (code_generation W _ _ _) as [raw|e]; [|done].
  intros [= <- <-]. cbn. rewrite length_app. cbn. lia.
Qed.

Lemma generate_explanation_counts c result s r s' :
  _generate_explanation W q c result s = (r, s') ->
  (length (explanation_log s') <= length (explanation_log s) + 1)%nat /\
  (length (explanation_log s) <= length (explanation_log s'))%nat.
Proof.
  unfold _generate_explanation, bind, lift, ret, call_chat_completion.
  destruct (py_get W result (txt "value") VNone);
    [|intros [= <- <-]; split; lia].
  destruct (json_dumps W _); [|intros [= <- <-]; split; lia].
  destruct (py_get W result (txt "output") (VStr []));
    [|intros [= <- <-]; split; lia].
  destruct (chat_completion W _ _); intros [= <- <-]; cbn;
    rewrite length_app; cbn; split; lia.
Qed.

Lemma handle_state attempt code e s r s' :
  handle attempt code e s = (r, s') -> s' = s.
Proof.
  unfold handle, attempt_handler, raise, ret.
  destruct (exn_is_Exception e); [|by intros [= <- <-]].
  destruct (attempt =? max_attempts - 1)%nat; by intros [= <- <-].
Qed.

Lemma run_attempt_calls attempt le code s r s' :
  run_attempt W q d fd da attempt le code s = (r, s') ->
  calls_between s s' 1.
Proof.
  rewrite run_attempt_unfold. unfold calls_between.
  destruct (_generate_analysis_code _ _ _ _ _ _ _ s) as [[c|e] s1] eqn:Hg;
    [pose proof (generate_analysis_code_called _ _ _ _ _ Hg) as Hg0|];
    apply generate_analysis_code_logs in Hg as (_ & Hx1 & Ha1 & Hg1 & Hg1');
    apply (f_equal length) in Hx1, Ha1.
  - pose proof (execute_code_state W c d s1) as Hst. cbv zeta in Hst.
    assert (length (generation_log (_execute_code W c d s1).2)
            = length (generation_log s1) /\
            length (explanation_log (_execute_code W c d s1).2)
            = length (explanation_log s1) /\
            length (exec_log (_execute_code W c d s1).2)
            = S (length (exec_log s1))) as (Hg2 & Ha2 & Hx2).
    { rewrite Hst. cbn [generation_log explanation_log exec_log].
      rewrite length_app. cbn [length]. repeat split; lia. }
    clear Hst.
    destruct (_execute_code W c d s1) as [[result|e] s2] eqn:Hx;
      cbn [snd] in Hg2, Ha2, Hx2.
    + destruct (_generate_explanation W q c result s2) as [[expl|e] s3] eqn:He;
        pose proof (generate_explanation_counts _ _ _ _ _ He) as [Ha3 Ha3'];
        apply generate_explanation_logs in He as (Hg3 & Hx3 & _);
        apply (f_equal length) in Hg3, Hx3.
      * intros [= <- <-]. lia.
      * intros ->%handle_state. lia.
    + intros ->%handle_state. lia.
  - intros ->%handle_state. lia.
Qed.

Lemma retry_loop_calls attempts le code s r s' :
  retry_loop W q d fd da attempts le code s = (r, s') ->
  calls_between s s' (length attempts).
Proof.
  revert le code s. induction attempts as [|a rest IH]; intros le code s.
  - cbn. unfold ret. intros [= <- <-]. unfold calls_between. lia.
  - rewrite retry_loop_cons.
    destruct (run_attempt W q d fd da a le code s) as [[[r'|l c]|e] s1] eqn:E;
      apply run_attempt_calls in E.
    + intros [= <- <-]. unfold calls_between in *. cbn. lia.
    + intros H%IH. unfold calls_between in *. cbn. lia.
    + intros [= <- <-]. unfold calls_between in *. cbn. lia.
Qed.

Lemma run_attempt_finished_code attempt le code s r s' :
  run_attempt W q d fd da attempt le code s = (Return (Finished r), s') ->
  exists c result expl g,
    r = success_result q c result expl attempt /\
    last (exec_log s') = Some (c, g) /\
    contains fence c = false.
Proof.
  rewrite run_attempt_unfold.
  destruct (_generate_analysis_code _ _ _ _ _ _ _ s) as [[c|e] s1] eqn:Hg;
    [|by intros ?%handle_not_finished].
  pose proof (execute_code_state W c d s1) as Hst. cbv zeta in Hst.
  destruct (_execute_code W c d s1) as [[result|e] s2] eqn:Hx;
    [|by intros ?%handle_not_finished].
  destruct (_generate_explanation W q c result s2) as [[expl|e] s3] eqn:He;
    [|by intros ?%handle_not_finished].
  intros [= <- <-]. exists c, result, expl, (with_builtins (exec_globals_of d)).
  apply generate_explanation_logs in He as (_ & -> & _).
  cbn [snd] in Hst. subst s2. cbn [exec_log].
  split; [done|]. split; [by rewrite last_snoc|].
  apply generate_analysis_code_clean in Hg as [raw ->].
  apply clean_code_no_fence.
Qed.

Lemma retry_loop_returns_code attempts le code s r s' :
  last attempts = Some (max_attempts - 1)%nat ->
  retry_loop W q d fd da attempts le code s = (Return r, s') ->
  exists c result expl attempt g,
    r = success_result q c result expl attempt /\
    last (exec_log s') = Some (c, g) /\ contains fence c = false.
Proof.
  revert le code s.
  induction attempts as [|a rest IH]; intros le code s Hlast; [done|].
  rewrite retry_loop_cons.
  destruct (run_attempt W q d fd da a le code s) as [[[r'|l c]|e] s1] eqn:E;
    [| |done].
  - intros [= <- <-].
    apply run_attempt_finished_code in E
      as (c & res & ex & g & -> & Hl & Hf).
    by exists c, res, ex, a, g.
  - destruct rest as [|b rest].
    + injection Hlast as ->. by apply run_attempt_last in E.
    + intros H. by apply (IH _ _ _ Hlast) in H.
Qed.

Lemma clean_code_fixed (x : text) : _clean_code (_clean_code x) = _clean_code x.
Proof.
  unfold _clean_code at 1.
  rewrite (remove_fences_id _ (clean_code_no_fence x)).
  rewrite (drop_preamble_settled _ (clean_code_settled x)).
  apply strip_idem.
Qed.

(** X16. The code [_generate_analysis_code] hands on is sanitized: it
    contains no fence, it is stripped, and sanitizing it again
    changes nothing. *)
Theorem generated_code_is_sanitized le attempt s c s' :
  _generate_analysis_code W q d fd da le attempt s = (Return c, s') ->
  contains fence c = false /\ strip c = c /\ _clean_code c = c.
Proof.
  intros [raw ->]%generate_analysis_code_clean. split; [|split].
  - apply clean_code_no_fence.
  - apply strip_idem.
  - apply clean_code_fixed.
Qed.

End ControllerExtras.


(** ** More on [analyze] *)

Section AnalyzeExtras.

Context (W : World).

Implicit Types (q p : text) (fd : pyval) (s : state).

Lemma analyze_dataframes_state d s r s' :
  _analyze_dataframes W d s = (r, s') -> s' = s.
Proof. unfold _analyze_dataframes. by intros [= _ <-]. Qed.

Lemma analyze_calls q p fd s r s' :
  analyze W q p fd s = (r, s') -> calls_between s s' 3.
Proof.
  unfold analyze, try_except, bind, ret.
  destruct (_load_excel_sheets W p s) as [[d|e] s1] eqn:Hload;
    apply load_excel_sheets_logs in Hload as (Hg & Ha & Hx);
    apply (f_equal length) in Hg, Ha, Hx.
  - destruct (_analyze_dataframes W d s1) as [[da|e] s2] eqn:Hsum;
      apply analyze_dataframes_state in Hsum as ->.
    + destruct (retry_loop W q d fd da (seq 0 max_attempts) None None s1)
        as [[r'|e] s3] eqn:Hloop;
        apply retry_loop_calls in Hloop; cbn [length seq max_attempts] in Hloop.
      * intros [= <- <-]. unfold calls_between in *. lia.
      * destruct (exn_is_Exception e); intros [= <- <-];
          unfold calls_between in *; lia.
    + destruct (exn_is_Exception e); intros [= <- <-];
        unfold calls_between; lia.
  - destruct (exn_is_Exception e); intros [= <- <-];
      unfold calls_between; lia.
Qed.

(** X13. One call of [analyze] sends at most three requests to the
    Code Generation Client, runs at most three codes and asks for at
    most three explanations, whether it returns or raises. *)
Theorem analyze_within_budget q p fd s :
  let s' := (analyze W q p fd s).2 in
  (length (generation_log s') <= length (generation_log s) + 3 /\
   length (exec_log s') <= length (exec_log s) + 3 /\
   length (explanation_log s') <= length (explanation_log s) + 3)%nat.
Proof.
  cbv zeta. destruct (analyze W q p fd s) as [r s'] eqn:E.
  apply analyze_calls in E. unfold calls_between in E. cbn [snd]. lia.
Qed.

(** X14. During one call of [analyze] no more codes are run than were
    generated, and no more explanations are asked for than codes were
    run; the logs only grow. *)
Theorem analyze_call_order q p fd s :
  let s' := (analyze W q p fd s).2 in
  (length (explanation_log s') - length (explanation_log s)
   <= length (exec_log s') - length (exec_log s) /\
   length (exec_log s') - length (exec_log s)
   <= length (generation_log s') - length (generation_log s) /\
   length (generation_log s) <= length (generation_log s') /\
   length (exec_log s) <= length (exec_log s') /\
   length (explanation_log s) <= length (explanation_log s'))%nat.
Proof.
  cbv zeta. destruct (analyze W q p fd s) as [r s'] eqn:E.
  apply analyze_calls in E. unfold calls_between in E. cbn [snd]. lia.
Qed.

Lemma analyze_returns_shape q p fd s r s' :
  analyze W q p fd s = (Return r, s') ->
  (exists c result expl attempt g,
     r = success_result q c result expl attempt /\
     last (exec_log s') = Some (c, g) /\ contains fence c = false) \/
  (exists e, r = failure_result q e).
Proof.
  unfold analyze, try_except, bind.
  destruct (_load_excel_sheets W p s) as [[d|e] s1].
  - destruct (_analyze_dataframes W d s1) as [[da|e] s2].
    + destruct (retry_loop W q d fd da (seq 0 max_attempts) None None s2)
        as [[r'|e] s3] eqn:E.
      * intros [= <- <-]. left.
        by apply retry_loop_returns_code in E.
      * destruct (exn_is_Exception e); [|done].
        intros [= <- <-]. right. by exists e.
    + destruct (exn_is_Exception e); [|done].
      intros [= <- <-]. right. by exists e.
  - destruct (exn_is_Exception e); [|done].
    intros [= <- <-]. right. by exists e.
Qed.

(** X15. When [analyze] returns a success, the code in the returned
    dictionary is the code that was run last, and it is free of
    fences. *)
Theorem successful_code_was_run_last q p fd s r s' :
  analyze W q p fd s = (Return r, s') ->
  field "success" r = Some (VBool true) ->
  exists c g,
    field "code" r = Some (VStr c) /\
    last (exec_log s') = Some (c, g) /\
    contains fence c = false.
Proof.
  intros [(c & res & ex & k & g & -> & Hl & Hf)|[e ->]]%analyze_returns_shape;
    [|done].
  intros _. by exists c, g.
Qed.

(** X12. An exception of the executed code that is no [Exception]
    (the interpreter exiting, an interrupt) is caught nowhere: the
    sandbox re-raises nothing in its place and [analyze] raises it to
    its caller at the first attempt. *)
Theorem analyze_lets_other_exceptions_escape q p fd s d s1 da c s2 e :
  _load_excel_sheets W p s = (Return d, s1) ->
  _analyze_dataframes W d s1 = (Return da, s1) ->
  _generate_analysis_code W q d fd da None 1 s1 = (Return c, s2) ->
  eff_raised (python_exec W (length (exec_log s2)) c
                (with_builtins (exec_globals_of d)) (heap s2)) = Some e ->
  exn_is_Exception e = false ->
  (_execute_code W c d s2).1 = Raise e /\
  (analyze W q p fd s).1 = Raise e /\
  length (generation_log (analyze W q p fd s).2)
  = S (length (generation_log s)).
Proof.
  intros Hload Hsum Hg He Hexc.
  assert (_execute_code W c d s2 = (Raise e, (_execute_code W c d s2).2))
    as Hx.
  { unfold _execute_code, bind, exec, raise. cbn. by rewrite He, Hexc. }
  split; [by rewrite Hx|].
  assert (analyze W q p fd s = (Raise e, (_execute_code W c d s2).2)) as Ha.
  { unfold analyze, try_except, bind. rewrite Hload, Hsum.
    change (seq 0 max_attempts) with [0; 1; 2]%nat.
    rewrite retry_loop_cons, run_attempt_unfold.
    change (if (0 <? 0)%nat then None else None) with (@None error_context).
    change (0 + 1)%nat with 1%nat. rewrite Hg, Hx.
    unfold handle. by rewrite Hexc, Hexc. }
  rewrite Ha. split; [done|]. cbn [snd].
  rewrite execute_code_state. cbn [generation_log].
  rewrite (generate_analysis_code_called W q d fd da _ _ _ _ _ Hg).
  apply load_excel_sheets_logs in Hload as (-> & _). done.
Qed.

End AnalyzeExtras.

(** ** The callers *)

Section Endpoints.

Context (W : World).

Lemma execute_custom_code_unfold code p s :
  execute_custom_code W code p s =
  match _load_excel_sheets W p s with
  | (Return d, s1) =>
      match _execute_code W code d s1 with
      | (Return result, s2) =>
          (Return (VDict [(txt "success", VBool true); (txt "result", result)]),
           s2)
      | (Raise e, s2) =>
          if exn_is_Exception e
          then (Return (VDict [(txt "success", VBool false);
                               (txt "error", VStr (exn_str e))]), s2)
          else (Raise e, s2)
      end
  | (Raise e, s1) =>
      if exn_is_Exception e
      then (Return (VDict [(txt "success", VBool false);
                           (txt "error", VStr (exn_str e))]), s1)
      else (Raise e, s1)
  end.
Proof.
  unfold execute_custom_code, try_except, bind, ret.
  destruct (_load_excel_sheets W p s) as [[d|e] s1]; [|done].
  by destruct (_execute_code W code d s1) as [[result|e] s2].
Qed.

(** X19. The raw-execution endpoint turns a fault of the code into a
    dictionary: when the executed code ends with an [Exception], the
    endpoint returns [success] false and as [error] the message
    [Code execution error: ...] with the trace. *)
Theorem execute_custom_code_encodes_fault code p s d s1 e :
  _load_excel_sheets W p s = (Return d, s1) ->
  eff_raised (python_exec W (length (exec_log s1)) code
                (with_builtins (exec_globals_of d)) (heap s1)) = Some e ->
  exn_is_Exception e = true ->
  (execute_custom_code W code p s).1
  = Return (VDict [(txt "success", VBool false);
                   (txt "error", VStr (execution_error_message e))]).
Proof.
  intros Hload He Hexc. rewrite execute_custom_code_unfold, Hload.
  assert (_execute_code W code d s1
          = (Raise (Exception W (execution_error_message e)),
             (_execute_code W code d s1).2)) as ->.
  { unfold _execute_code, bind, exec, raise. cbn. by rewrite He, Hexc. }
  reflexivity.
Qed.

(** X20. The raw-execution endpoint sends nothing to the two
    language-model services, runs at most one code, and lets no
    [Exception] escape. *)
Theorem execute_custom_code_is_local code p s :
  let run := execute_custom_code W code p s in
  generation_log run.2 = generation_log s /\
  explanation_log run.2 = explanation_log s /\
  (length (exec_log run.2) <= length (exec_log s) + 1)%nat /\
  match run.1 with
  | Return _ => True
  | Raise e => exn_is_Exception e = false
  end.
Proof.
  cbv zeta. rewrite execute_custom_code_unfold.
  destruct (_load_excel_sheets W p s) as [[d|e] s1] eqn:Hload;
    apply load_excel_sheets_logs in Hload as (Hg & Ha & Hx).
  - pose proof (execute_code_state W code d s1) as Hst. cbv zeta in Hst.
    destruct (_execute_code W code d s1) as [[result|e] s2]; cbn [snd] in Hst;
      subst s2.
    + cbn. rewrite length_app, Hx. cbn. repeat split; try done; lia.
    + destruct (exn_is_Exception e) eqn:E; cbn; rewrite length_app, Hx; cbn;
        repeat split; try done; lia.
  - destruct (exn_is_Exception e) eqn:E; cbn; rewrite Hx;
      repeat split; try done; lia.
Qed.

(** X21. Every dictionary [analyze] returns passes the validation of
    the response model, so the endpoint answers with a response and
    not with status 500; the fields the dictionary lacks are [None]
    in the response: no [error] after a success, no [code] and no
    [result] after a failure. *)
Theorem agentic_analysis_responds (validation_error : pyval -> exn)
    q p fd s r s' :
  analyze W q p fd s = (Return r, s') ->
  exists response,
    agentic_analysis W validation_error q p fd s
    = (Return (Responded response), s') /\
    Schema.query response = q /\
    (if Schema.success response
     then Schema.error response = None /\
          (exists c, Schema.code response = Some c)
     else Schema.code response = None /\
          Schema.result response = None /\
          (exists msg, Schema.error response = Some msg) /\
          Schema.attempts response = Some 3%Z).
Proof.
  intros Ha. unfold agentic_analysis, try_except, bind. rewrite Ha.
  apply analyze_returns_shape in Ha
    as [(c & res & ex & k & g & -> & _ & _)|[e ->]].
  - eexists. split; [reflexivity|]. cbn. repeat split; eauto.
  - eexists. split; [reflexivity|]. cbn. repeat split; eauto.
Qed.

End Endpoints.


(** ** More on the Prompt Composer *)

Lemma app_reassoc_3 {A} (x1 x2 x3 y1 y2 y3 r : list A) :
  x1 ++ x2 ++ x3 ++ y1 ++ y2 ++ y3 ++ r =
  (x1 ++ x2 ++ x3) ++ (y1 ++ y2 ++ y3) ++ r.
Proof. by rewrite <- !app_assoc. Qed.

Lemma app_reassoc_9 {A} (x1 x2 x3 x4 x5 x6 x7 x8 x9 y r : list A) :
  x1 ++ x2 ++ x3 ++ x4 ++ x5 ++ x6 ++ x7 ++ x8 ++ x9 ++ y ++ r =
  (x1 ++ x2 ++ x3 ++ x4 ++ x5 ++ x6 ++ x7 ++ x8 ++ x9) ++ y ++ r.
Proof. by rewrite <- !app_assoc. Qed.

Lemma app_reassoc_15 {A}
    (x1 x2 x3 x4 x5 x6 x7 x8 x9 x10 x11 x12 x13 x14 x15 y r : list A) :
  x1 ++ x2 ++ x3 ++ x4 ++ x5 ++ x6 ++ x7 ++ x8 ++ x9 ++ x10 ++ x11 ++ x12 ++
  x13 ++ x14 ++ x15 ++ y ++ r =
  (x1 ++ x2 ++ x3 ++ x4 ++ x5 ++ x6 ++ x7 ++ x8 ++ x9 ++ x10 ++ x11 ++ x12 ++
   x13 ++ x14 ++ x15) ++ y ++ r.
Proof. by rewrite <- !app_assoc. Qed.

Section PromptExtras.

Context (W : World) (q : text) (d : list (text * loc)) (fd da : pyval).

Lemma analysis_prompt_shape section attempt prompt :
  analysis_prompt W q d fd da section attempt = Return prompt ->
  exists summary company year,
    json_dumps W da = Return summary /\
    prompt =
      prompt_text_0 ++ q ++
      prompt_text_1 ++ nat_text attempt ++
      prompt_text_2 ++ nat_text max_attempts ++
      prompt_text_3 ++ section ++
      prompt_text_4 ++ summary ++
      prompt_text_5 ++ company ++
      prompt_text_6 ++ year ++
      prompt_text_7 ++ join_with (txt ", ") (dict_keys d) ++
      prompt_text_8.
Proof.
  unfold analysis_prompt, outcome_bind.
  destruct (json_dumps W da) as [summary|]; [|done].
  destruct (metadata_field W fd (txt "company_name")) as [company|]; [|done].
  destruct (metadata_field W fd (txt "fiscal_year")) as [year|]; [|done].
  intros <-%Return_inj. by exists summary, company, year.
Qed.

(** X18. Every prompt that is composed contains the query as given,
    the attempt number over the budget, the section on the previous
    failure, the summary of the tables as [json.dumps] wrote it, and
    the names of all tables, the empty ones too. *)
Theorem analysis_prompt_includes section attempt prompt :
  analysis_prompt W q d fd da section attempt = Return prompt ->
  contains q prompt = true /\
  contains (nat_text attempt ++ prompt_text_2 ++ nat_text max_attempts) prompt
  = true /\
  contains section prompt = true /\
  (exists summary,
     json_dumps W da = Return summary /\ contains summary prompt = true) /\
  contains (join_with (txt ", ") (dict_keys d)) prompt = true.
Proof.
  intros (summary & company & year & Hs & ->)%analysis_prompt_shape.
  split; [|split; [|split; [|split]]].
  - apply contains_iff. eexists _, _. reflexivity.
  - apply contains_iff. eexists _, _. apply app_reassoc_3.
  - apply contains_iff. eexists _, _. apply app_reassoc_8.
  - exists summary. split; [done|].
    apply contains_iff. eexists _, _. apply app_reassoc_9.
  - apply contains_iff. eexists _, _. apply app_reassoc_15.
Qed.

End PromptExtras.

(** ** More on the Table Introspector *)

Section IntrospectorExtras.

Context (W : World).

Lemma dict_get_elem_of {A} k (v : A) (d : list (text * A)) :
  dict_get k d = Some v -> (k, v) ∈ d.
Proof.
  induction d as [|[k' v'] d IH]; cbn; [done|].
  case_bool_decide as E.
  - intros [= ->]. subst. left.
  - intros H. right. by apply IH.
Qed.

Lemma elem_of_dict_get {A} k (v : A) (d : list (text * A)) :
  NoDup (dict_keys d) -> (k, v) ∈ d -> dict_get k d = Some v.
Proof.
  unfold dict_keys. induction d as [|[k' v'] d IH]; cbn.
  - by intros _ ?%elem_of_nil.
  - rewrite NoDup_cons. intros [Hk Hd] [[= -> ->]|Hin]%elem_of_cons.
    + by rewrite bool_decide_eq_true_2.
    + case_bool_decide as E; [|by apply IH].
      subst. exfalso. apply Hk.
      apply list_elem_of_fmap. by exists (k, v).
Qed.

(** The loop, from any [analysis] built so far whose names are not
    among the names still to come. *)
Lemma analyze_items_entries (items : list (text * pyval)) :
  forall (acc : list (text * pyval)) (r : pyval),
  NoDup (dict_keys items) ->
  (forall k, k ∈ dict_keys items -> k ∉ dict_keys acc) ->
  analyze_items W items acc = Return r ->
  exists analysis,
    r = VDict analysis /\
    (forall k df, (k, VDataFrame df) ∈ items -> df_empty df = false ->
                  k ∈ dict_keys analysis) /\
    (forall k, k ∈ dict_keys acc -> dict_get k analysis = dict_get k acc) /\
    (forall k v, dict_get k analysis = Some v ->
       dict_get k acc = Some v \/
       exists df, (k, VDataFrame df) ∈ items /\ df_empty df = false /\
                  summarize_table W df = Return v).
Proof.
  unfold dict_keys.
  induction items as [|[name x] rest IH]; intros acc r Hnd Hfresh.
  - cbn. intros [= <-]. exists acc. repeat split; try done.
    + by intros k df ?%elem_of_nil.
    + intros k v H. by left.
  - rewrite fmap_cons in Hnd, Hfresh. cbn [fst] in Hnd, Hfresh.
    apply NoDup_cons in Hnd as [Hname Hnd].
    assert (name ∉ acc.*1) as Hacc by (apply Hfresh; left).
    destruct x as [| | | | | | |df| | | | | |]; try done.
    cbn [analyze_items]. destruct (df_empty df) eqn:Hempty.
    + intros Hrun.
      destruct (IH acc r Hnd) as (analysis & -> & Hin & Hold & Hget);
        [intros k Hk; apply Hfresh; by right|done|].
      exists analysis. repeat split; [|done|].
      * intros k df' [[= -> ->]|Hk]%elem_of_cons Hne; [congruence|].
        by apply (Hin k df').
      * intros k v Hv. destruct (Hget k v Hv) as [?|(df' & ? & ? & ?)];
          [by left|right]. exists df'. repeat split; try done. by right.
    + destruct (summarize_table W df) as [summary|e] eqn:Hsum; [|done].
      cbn [outcome_bind]. intros Hrun.
      pose proof (dict_keys_set name summary acc) as Hkeys.
      unfold dict_keys in Hkeys.
      rewrite bool_decide_eq_false_2 in Hkeys by done.
      destruct (IH (dict_set name summary acc) r Hnd)
        as (analysis & -> & Hin & Hold & Hget); [|done|].
      { intros k Hk. rewrite Hkeys, elem_of_app, list_elem_of_singleton.
        intros [Hk'| ->]; [|done]. apply (Hfresh k); [by right|done]. }
      exists analysis. repeat split.
      * intros k df' [[= -> ->]|Hk]%elem_of_cons Hne;
          [|by apply (Hin k df')].
        apply (dict_get_Some_key _ summary). rewrite Hold.
        -- apply dict_get_set_eq.
        -- rewrite Hkeys, elem_of_app, list_elem_of_singleton. by right.
      * intros k Hk. rewrite Hold.
        -- apply dict_get_set_ne. by intros ->.
        -- rewrite Hkeys, elem_of_app. by left.
      * intros k v Hv. destruct (Hget k v Hv) as [Hv'|(df' & ? & ? & ?)].
        -- destruct (decide (k = name)) as [->|Hne].
           ++ rewrite dict_get_set_eq in Hv'. injection Hv' as <-.
              right. exists df. repeat split; try done. left.
           ++ left. by rewrite dict_get_set_ne in Hv'.
        -- right. exists df'. repeat split; try done. by right.
Qed.

(** X22. The summary has an entry for every table that is not empty
    and for no other: each of its entries is the summary of the
    non-empty table of that name, and the state is left as it was. *)
Theorem analyze_dataframes_covers_nonempty (d : list (text * loc)) s r s' :
  NoDup (dict_keys d) ->
  _analyze_dataframes W d s = (Return r, s') ->
  s' = s /\
  exists analysis,
    r = VDict analysis /\
    (forall k l df,
       dict_get k d = Some l -> heap s !! l = Some (VDataFrame df) ->
       df_empty df = false -> k ∈ dict_keys analysis) /\
    (forall k summary,
       dict_get k analysis = Some summary ->
       exists l df,
         dict_get k d = Some l /\ heap s !! l = Some (VDataFrame df) /\
         df_empty df = false /\ summarize_table W df = Return summary).
Proof.
  intros Hnd Hrun. unfold _analyze_dataframes in Hrun.
  injection Hrun as Hrun <-. split; [done|].
  apply analyze_items_entries in Hrun as (analysis & -> & Hin & _ & Hget).
  - exists analysis. repeat split.
    + intros k l df Hk Hl Hne. apply (Hin k df); [|done].
      apply list_elem_of_fmap. exists (k, l). cbn. rewrite Hl. cbn.
      split; [done|]. by apply dict_get_elem_of.
    + intros k summary Hv.
      destruct (Hget k summary Hv) as [?|(df & Hk & Hne & Hsum)]; [done|].
      apply list_elem_of_fmap in Hk as ([k' l] & [= -> Hl] & Hk).
      cbn in Hl. exists l, df. repeat split; try done.
      * by apply elem_of_dict_get.
      * destruct (heap s !! l); cbn in Hl; by subst.
  - unfold dict_keys in *. by rewrite <- list_fmap_compose.
  - intros k _. apply not_elem_of_nil.
Qed.

End IntrospectorExtras.

(** ** More on the Sandbox: what a successful execution returns *)

Section SandboxResult.

Context (W : World).


End SandboxResult.

(** ** More on the Retry Controller: the attempt count *)

Section AttemptCount.

Context (W : World) (q : text) (d : list (text * loc)) (fd da : pyval).

Implicit Types (s : state) (e : exn) (code : option text)
  (le : option error_context) (attempt : nat).

(** Whether the prompt can be composed depends neither on the attempt
    number nor on the section on the previous failure. *)
Lemma analysis_prompt_composes section attempt :
  prompt_composes W q d fd da ->
  exists prompt, analysis_prompt W q d fd da section attempt = Return prompt.
Proof.
  intros (section' & attempt' & prompt' & H). revert H.
  unfold analysis_prompt, outcome_bind.
  destruct (json_dumps W da) as [summary|]; [|done].
  destruct (metadata_field W fd (txt "company_name")) as [company|]; [|done].
  destruct (metadata_field W fd (txt "fiscal_year")) as [year|]; [|done].
  intros _. eauto.
Qed.

Lemma generate_analysis_code_composes le attempt s c s' :
  _generate_analysis_code W q d fd da le attempt s = (Return c, s') ->
  prompt_composes W q d fd da.
Proof.
  unfold _generate_analysis_code, bind, lift, ret, call_code_generation.
  destruct (analysis_prompt _ _ _ _ _ _ _) as [prompt|e] eqn:E; [|done].
  intros _. by eexists _, _, _.
Qed.

Lemma generate_analysis_code_request le attempt s r s' :
  prompt_composes W q d fd da ->
  _generate_analysis_code W q d fd da le attempt s = (r, s') ->
  length (generation_log s') = S (length (generation_log s)).
Proof.
  intros H.
  destruct (analysis_prompt_composes (error_section le attempt) attempt H)
    as [prompt E].
  unfold _generate_analysis_code, bind, lift, ret, call_code_generation.
  rewrite E.
  destruct (code_generation W _ _ _); intros [= <- <-]; cbn;
    rewrite length_app; cbn; lia.
Qed.

Lemma run_attempt_request attempt le code s r s' :
  prompt_composes W q d fd da ->
  run_attempt W q d fd da attempt le code s = (r, s') ->
  length (generation_log s') = S (length (generation_log s)).
Proof.
  intros H. rewrite run_attempt_unfold.
  destruct (_generate_analysis_code _ _ _ _ _ _ _ s) as [[c|e] s1] eqn:Hg;
    apply (generate_analysis_code_request _ _ _ _ _ H) in Hg;
    [|by intros ->%handle_state].
  pose proof (execute_code_state W c d s1) as Hst. cbv zeta in Hst.
  destruct (_execute_code W c d s1) as [[result|e] s2]; cbn [snd] in Hst;
    [|intros ->%handle_state; subst s2; by cbn].
  destruct (_generate_explanation W q c result s2) as [[expl|e] s3] eqn:He;
    apply generate_explanation_logs in He as (He & _ & _).
  - intros [= _ <-]. rewrite He. subst s2. by cbn.
  - intros ->%handle_state. rewrite He. subst s2. by cbn.
Qed.

Lemma run_attempt_finished_composes attempt le code s r s' :
  run_attempt W q d fd da attempt le code s = (Return (Finished r), s') ->
  prompt_composes W q d fd da /\
  exists c result expl, r = success_result q c result expl attempt.
Proof.
  rewrite run_attempt_unfold.
  destruct (_generate_analysis_code _ _ _ _ _ _ _ s) as [[c|e] s1] eqn:Hg;
    [|by intros ?%handle_not_finished].
  apply generate_analysis_code_composes in Hg.
  destruct (_execute_code W c d s1) as [[result|e] s2];
    [|by intros ?%handle_not_finished].
  destruct (_generate_explanation W q c result s2) as [[expl|e] s3];
    [|by intros ?%handle_not_finished].
  intros [= <- _]. split; [done|]. by exists c, result, expl.
Qed.

(** The pass that finishes the loop is preceded by as many requests
    to the Code Generation Client as passes went before it. *)
Lemma retry_loop_requests attempts le code s r s' :
  last attempts = Some (max_attempts - 1)%nat ->
  retry_loop W q d fd da attempts le code s = (Return r, s') ->
  prompt_composes W q d fd da /\
  exists pre attempt post c result expl,
    attempts = pre ++ attempt :: post /\
    r = success_result q c result expl attempt /\
    length (generation_log s')
    = (length (generation_log s) + S (length pre))%nat.
Proof.
  revert le code s.
  induction attempts as [|a rest IH]; intros le code s Hlast; [done|].
  rewrite retry_loop_cons.
  destruct (run_attempt W q d fd da a le code s) as [[[r'|l c]|e] s1] eqn:E;
    [| |done].
  - intros [= <- <-].
    pose proof E as [Hc (c & result & expl & ->)]%run_attempt_finished_composes.
    split; [done|]. exists [], a, rest, c, result, expl.
    repeat split. apply (run_attempt_request _ _ _ _ _ _ Hc) in E.
    cbn. lia.
  - destruct rest as [|b rest].
    + injection Hlast as ->. by apply run_attempt_last in E.
    + intros H. apply (IH _ _ _ Hlast) in H
        as (Hc & pre & k & post & c' & result & expl & Hsplit & -> & Hlen).
      split; [done|]. exists (a :: pre), k, post, c', result, expl.
      apply (run_attempt_request _ _ _ _ _ _ Hc) in E.
      repeat split; [by rewrite Hsplit|]. cbn [length]. lia.
Qed.

End AttemptCount.

Section AttemptCountAnalyze.

Context (W : World).

Lemma seq_split_position (n : nat) pre (k : nat) post :
  seq 0 n = pre ++ k :: post -> k = length pre /\ (k < n)%nat.
Proof.
  intros H.
  assert (seq 0 n !! length pre = Some k) as Hk.
  { rewrite H. by rewrite list_lookup_middle. }
  apply lookup_seq in Hk as [-> ?]. split; [done|lia].
Qed.

(** X24. When [analyze] returns a success, its [attempts] field is a
    number from 1 to 3, and it is the number of requests this call
    sent to the Code Generation Client: every earlier pass sent one,
    also a pass whose request failed. *)
Theorem success_attempts_is_generation_count q p fd s r s' :
  analyze W q p fd s = (Return r, s') ->
  field "success" r = Some (VBool true) ->
  exists n : nat,
    field "attempts" r = Some (VInt (Z.of_nat n)) /\
    (1 <= n <= max_attempts)%nat /\
    length (generation_log s') = (length (generation_log s) + n)%nat.
Proof.
  unfold analyze, try_except, bind.
  destruct (_load_excel_sheets W p s) as [[d|e] s1] eqn:Hload.
  - apply load_excel_sheets_logs in Hload as (Hg & _ & _).
    destruct (_analyze_dataframes W d s1) as [[da|e] s2] eqn:Hsum.
    + apply analyze_dataframes_state in Hsum as ->.
      destruct (retry_loop W q d fd da (seq 0 max_attempts) None None s1)
        as [[r'|e] s3] eqn:E.
      * intros [= <- <-] _.
        apply retry_loop_requests in E
          as (_ & pre & k & post & c & result & expl & Hsplit & -> & Hlen);
          [|done].
        apply seq_split_position in Hsplit as [-> Hlt].
        exists (length pre + 1)%nat. repeat split; [lia|lia|].
        rewrite Hlen, Hg. lia.
      * destruct (exn_is_Exception e); [|done]. by intros [= <- <-].
    + destruct (exn_is_Exception e); [|done]. by intros [= <- <-].
  - destruct (exn_is_Exception e); [|done]. by intros [= <- <-].
Qed.

End AttemptCountAnalyze.


(** ** Instances *)


Lemma loader_last_sheet_wins_witness :
  NoDup (dict_keys
           (returned [] (_load_excel_sheets world_two_sheets
                           (txt "report.xlsx") initial_state))) /\
  (length (returned [] (_load_excel_sheets world_two_sheets
                          (txt "report.xlsx") initial_state)) <= 2)%nat.
Proof.
  destruct (loader_last_sheet_wins world_two_sheets (txt "report.xlsx")
              [txt "Profit Loss"; txt "Profit-Loss"] initial_state
              (returned [] (_load_excel_sheets world_two_sheets
                              (txt "report.xlsx") initial_state))
              (_load_excel_sheets world_two_sheets (txt "report.xlsx")
                 initial_state).2) as (Hnd & _ & Hlen & _).
  - reflexivity.
  - vm_compute. reflexivity.
  - split; [exact Hnd|exact Hlen].
Defined.

(** Two sheets named [Profit Loss] and [Profit-Loss] give one table,
    [profit_loss], and it is the table of the second sheet. *)
Example colliding_sheet_names :
  let run := _load_excel_sheets world_two_sheets (txt "report.xlsx")
               initial_state in
  returned [] run = [(txt "profit_loss", N.succ (fresh_loc host_heap))] /\
  heap run.2 !! N.succ (fresh_loc host_heap)
  = Some (VDataFrame (sample_table 3)).
Proof. vm_compute. split; reflexivity. Qed.

Lemma analyze_lets_other_exceptions_escape_witness :
  (analyze world_exit (txt "total revenue") (txt "report.xlsx") no_context
           initial_state).1 = Raise system_exit.
Proof.
  pose (W := world_exit).
  pose (loaded := _load_excel_sheets W (txt "report.xlsx") initial_state).
  pose (d := returned [] loaded).
  pose (da := returned VNone (_analyze_dataframes W d loaded.2)).
  pose (s2 := (_generate_analysis_code W (txt "total revenue") d no_context
                 da None 1 loaded.2).2).
  apply (analyze_lets_other_exceptions_escape W (txt "total revenue")
           (txt "report.xlsx") no_context initial_state d loaded.2 da
           (txt "exit()") s2 system_exit).
  - vm_compute. reflexivity.
  - vm_compute. reflexivity.
  - vm_compute. reflexivity.
  - vm_compute. reflexivity.
  - reflexivity.
Defined.

Lemma successful_code_was_run_last_witness :
  exists c g,
    field "code"
      (returned VNone
         (analyze world_first_try (txt "total revenue") (txt "report.xlsx")
                  no_context initial_state)) = Some (VStr c) /\
    last (exec_log
            (analyze world_first_try (txt "total revenue")
                     (txt "report.xlsx") no_context initial_state).2)
    = Some (c, g) /\
    contains fence c = false.
Proof.
  apply (successful_code_was_run_last world_first_try (txt "total revenue")
           (txt "report.xlsx") no_context initial_state).
  - vm_compute. reflexivity.
  - vm_compute. reflexivity.
Defined.

Lemma generated_code_is_sanitized_witness :
  contains fence constant_code = false /\
  strip constant_code = constant_code /\
  _clean_code constant_code = constant_code.
Proof.
  apply (generated_code_is_sanitized world_first_try (txt "total revenue")
           [] no_context VNone None 1 initial_state constant_code
           (_generate_analysis_code world_first_try (txt "total revenue")
              [] no_context VNone None 1 initial_state).2).
  vm_compute. reflexivity.
Defined.

Lemma retry_prompt_after_execution_fault_witness :
  run_attempt world_always_faulting (txt "total revenue") [] no_context VNone
    0 None None initial_state
  = (Return
       (Continue
          (last_error_of
             (Exception world_always_faulting
                (execution_error_message zero_division))
             (Some divide_code))
          (Some divide_code)),
     (_execute_code world_always_faulting divide_code []
        (_generate_analysis_code world_always_faulting (txt "total revenue")
           [] no_context VNone None 1 initial_state).2).2).
Proof.
  pose (W := world_always_faulting).
  pose (s1 := (_generate_analysis_code W (txt "total revenue") [] no_context
                 VNone None 1 initial_state).2).
  apply (retry_prompt_after_execution_fault W (txt "total revenue") []
           no_context VNone 0 None None initial_state divide_code s1
           (Exception W (execution_error_message zero_division))
           (_execute_code W divide_code [] s1).2).
  - vm_compute. reflexivity.
  - vm_compute. reflexivity.
  - reflexivity.
  - discriminate.
Defined.

Lemma analysis_prompt_includes_witness :
  exists prompt,
    analysis_prompt world_first_try (txt "total revenue")
      [(txt "income_statement", 200)] no_context VNone [] 1 = Return prompt /\
    contains (txt "total revenue") prompt = true /\
    contains (txt "income_statement") prompt = true.
Proof.
  pose (prompt :=
    returned [] (analysis_prompt world_first_try (txt "total revenue")
                   [(txt "income_statement", 200)] no_context VNone [] 1,
                 initial_state)).
  exists prompt.
  assert (analysis_prompt world_first_try (txt "total revenue")
            [(txt "income_statement", 200)] no_context VNone [] 1
          = Return prompt) as H by (vm_compute; reflexivity).
  split; [exact H|].
  destruct (analysis_prompt_includes world_first_try (txt "total revenue")
              [(txt "income_statement", 200)] no_context VNone [] 1 prompt H)
    as (Hq & _ & _ & _ & Hk).
  split; [exact Hq|exact Hk].
Defined.

Lemma execute_custom_code_encodes_fault_witness :
  (execute_custom_code world_always_faulting divide_code (txt "report.xlsx")
     initial_state).1
  = Return (VDict [(txt "success", VBool false);
                   (txt "error", VStr (execution_error_message zero_division))]).
Proof.
  pose (loaded := _load_excel_sheets world_always_faulting (txt "report.xlsx")
                    initial_state).
  apply (execute_custom_code_encodes_fault world_always_faulting divide_code
           (txt "report.xlsx") initial_state (returned [] loaded) loaded.2).
  - vm_compute. reflexivity.
  - vm_compute. reflexivity.
  - reflexivity.
Defined.

Lemma agentic_analysis_responds_witness :
  exists response,
    agentic_analysis world_first_try (fun _ => fault "validation error")
      (txt "total revenue") (txt "report.xlsx") no_context initial_state
    = (Return (Responded response),
       (analyze world_first_try (txt "total revenue") (txt "report.xlsx")
                no_context initial_state).2) /\
    Schema.query response = txt "total revenue" /\
    (if Schema.success response
     then Schema.error response = None /\
          (exists c, Schema.code response = Some c)
     else Schema.code response = None /\
          Schema.result response = None /\
          (exists msg, Schema.error response = Some msg) /\
          Schema.attempts response = Some 3%Z).
Proof.
  apply (agentic_analysis_responds world_first_try
           (fun _ => fault "validation error") (txt "total revenue")
           (txt "report.xlsx") no_context initial_state
           (returned VNone
              (analyze world_first_try (txt "total revenue")
                       (txt "report.xlsx") no_context initial_state))).
  vm_compute. reflexivity.
Defined.

(** After a first attempt that works the endpoint answers with the
    code and without error. *)
Example agentic_analysis_first_try :
  exists response,
    (agentic_analysis world_first_try (fun _ => fault "validation error")
       (txt "total revenue") (txt "report.xlsx") no_context initial_state).1
    = Return (Responded response) /\
    Schema.success response = true /\
    Schema.code response = Some constant_code /\
    Schema.error response = None /\
    Schema.attempts response = Some 1%Z.
Proof. eexists. vm_compute. repeat split; reflexivity. Qed.

Lemma analyze_dataframes_covers_nonempty_witness :
  exists analysis,
    returned VNone
      (_analyze_dataframes world_first_try
         (returned [] (_load_excel_sheets world_first_try (txt "report.xlsx")
                         initial_state))
         (_load_excel_sheets world_first_try (txt "report.xlsx")
            initial_state).2)
    = VDict analysis /\
    txt "income_statement" ∈ dict_keys analysis.
Proof.
  pose (W := world_first_try).
  pose (load := _load_excel_sheets W (txt "report.xlsx") initial_state).
  destruct (analyze_dataframes_covers_nonempty W (returned [] load) load.2
              (returned VNone
                 (_analyze_dataframes W (returned [] load) load.2))
              load.2)
    as (_ & analysis & Hr & Hin & _).
  - apply (bool_decide_unpack _). vm_compute. exact I.
  - vm_compute. reflexivity.
  - exists analysis. split; [exact Hr|].
    apply (Hin (txt "income_statement") 87 (clean_table (sample_table 2)));
      vm_compute; reflexivity.
Defined.

(** A table that is empty once cleaned has no entry in the summary. *)
Example blank_table_not_summarized :
  returned VNone
    (_analyze_dataframes world_blank
       (returned [] (_load_excel_sheets world_blank (txt "report.xlsx")
                       initial_state))
       (_load_excel_sheets world_blank (txt "report.xlsx") initial_state).2)
  = VDict [].
Proof. vm_compute. reflexivity. Qed.


Lemma success_attempts_is_generation_count_witness :
  exists n : nat,
    field "attempts"
      (returned VNone
         (analyze world_stale_code (txt "total revenue") (txt "report.xlsx")
                  no_context initial_state))
    = Some (VInt (Z.of_nat n)) /\
    (1 <= n <= max_attempts)%nat /\
    length (generation_log
              (analyze world_stale_code (txt "total revenue")
                       (txt "report.xlsx") no_context initial_state).2)
    = (length (generation_log initial_state) + n)%nat.
Proof.
  apply (success_attempts_is_generation_count world_stale_code
           (txt "total revenue") (txt "report.xlsx") no_context initial_state).
  - vm_compute. reflexivity.
  - vm_compute. reflexivity.
Defined.

